(** * Passwordless mobile-number authentication: one-time code, session
      token and access gate.

    Shallow embedding of the sources, one module each:
      - [Otp]:  the one-time code utility [utils/otp.js]
                (src/unnamed/part_001);
      - [Jwt]:  the token utility [src/utils/jwt.js];
      - [Gate]: the middleware [middleware/auth.middleware.js]
                (src/unnamed/part_002);
      - [Auth]: the controller [controllers/auth.controller.js], which is
                the second half of src/controllers/profile.controller.js
                ([sendOtp], [verifyOtp]);
    with the schema of src/unnamed/part_000 for the two tables; and, for
    the further properties at the end,
      - [Secrets]:  [src/utils/aws-secrets.js];
      - [Database]: [connectDB] of [src/config/database.js];
      - [Profile]:  [saveProfile] of src/controllers/profile.controller.js,
                    up to the UPDATE statement it sends;
      - [Routes]:   [PUT /api/profile] of [src/routes/profile.routes.js].
    What lies outside the repository (Secrets Manager, [JSON.parse],
    [parseInt], [URL], the test of a connection, the conversion of a
    value to a number or a date) is a parameter of the functions that use
    it, and one call runs at a time.

    Conventions.
      - A JavaScript [Date] is the integer number of milliseconds since
        the epoch ([Z]); a handler reads the clock once per request, and
        the store has the same clock.  Fifteen minutes added to the
        minutes of a date are 900000 milliseconds.
      - [process.env] is a finite map from names to strings, as the
        modules see it when they read it; it does not change while the
        process runs.
      - The table [users] is the list of its rows, with the next value of
        the SERIAL column; the table [otps] is a finite map keyed by
        [user_id], which the schema declares UNIQUE NOT NULL.
      - Every call of [query] adds the statement to a log, so that which
        statements a handler sends is observable.  The store answers every
        statement: a failure of the connection is outside the model.
      - A request body holds strings; a missing field is [None]. *)

From Stdlib Require Import ZArith QArith Qround Ascii String List Lia Bool.
From stdpp Require Import base option gmap strings.

Local Open Scope Z_scope.
Local Open Scope string_scope.

(** ** JavaScript strings and truthiness *)

Module Js.

(** [s.startsWith(p)] *)
Definition startsWith (p s : string) : bool := String.prefix p s.

(** [s.slice(n)] for [0 <= n]: the suffix from index [n]. *)
Definition slice (n : nat) (s : string) : string :=
  String.substring n (String.length s - n) s.

(** [!s] for a string value: only the empty string is falsy. *)
Definition falsy (s : string) : bool :=
  match s with EmptyString => true | _ => false end.

(** [!v] for a value that is a string or [undefined]. *)
Definition not_ (v : option string) : bool :=
  match v with None => true | Some s => falsy s end.

(** [v || d] for a value that is a string or [undefined]. *)
Definition or_default (v : option string) (d : string) : string :=
  match v with
  | None => d
  | Some s => if falsy s then d else s
  end.

(** [v === lit] for a value that is a string or [undefined]. *)
Definition strict_eq (v : option string) (lit : string) : bool :=
  match v with None => false | Some s => String.eqb s lit end.

End Js.

(** ** Anchored regular expressions of the shape used by the sources

    Both regular expressions of the program, [/^\d{6}$/] and
    [/^\+?[1-9]\d{1,14}$/], are a sequence of character classes, each with
    a repetition range, anchored at both ends.  [test] is a backtracking
    matcher for that fragment. *)

Module Regex.

Record item := Item { cls : ascii -> bool; lo : nat; hi : nat }.

(** [\d]: an ASCII decimal digit. *)
Definition digit (c : ascii) : bool :=
  let n := nat_of_ascii c in (Nat.leb 48 n && Nat.leb n 57)%bool.

(** [[1-9]] *)
Definition nonzero_digit (c : ascii) : bool :=
  let n := nat_of_ascii c in (Nat.leb 49 n && Nat.leb n 57)%bool.

(** [\+] *)
Definition plus (c : ascii) : bool := Ascii.eqb c "+"%char.

(** Between [lo] and [hi] characters of class [c], then the continuation
    [k] on what is left. *)
Fixpoint rep (c : ascii -> bool) (lo hi : nat)
         (k : list ascii -> bool) (s : list ascii) : bool :=
  (match lo with O => k s | S _ => false end)
  || match hi, s with
     | S hi', a :: s' => c a && rep c (Nat.pred lo) hi' k s'
     | _, _ => false
     end.

Fixpoint matches (p : list item) (s : list ascii) : bool :=
  match p with
  | [] => match s with [] => true | _ => false end
  | i :: p' => rep (cls i) (lo i) (hi i) (matches p') s
  end.

(** [/^p$/.test(s)] *)
Definition test (p : list item) (s : string) : bool :=
  matches p (list_ascii_of_string s).

End Regex.

(** ** [src/utils/otp.js] *)

Module Otp.

Definition digit_char (d : Z) : ascii := ascii_of_nat (48 + Z.to_nat d).

(** Decimal digits of a non-negative integer, most significant first. *)
Fixpoint digits (fuel : nat) (n : Z) (acc : list ascii) : list ascii :=
  let acc' := digit_char (n mod 10) :: acc in
  match fuel with
  | O => acc'
  | S fuel' => if Z.eqb (n / 10) 0 then acc' else digits fuel' (n / 10) acc'
  end.

(** [Number.prototype.toString()] on a non-negative integer. *)
Definition toString (n : Z) : string :=
  string_of_list_ascii (digits (Z.to_nat (Z.log2 n)) n []).

(** [generateOTP()], as a function of the value [r] drawn by
    [Math.random()]:
    [Math.floor(100000 + r * 900000).toString()]. *)
Definition generateOTP (r : Q) : string :=
  toString (Qfloor (100000 + r * 900000)%Q).

(** [/^\d{6}$/] *)
Definition otpRegex : list Regex.item := [Regex.Item Regex.digit 6 6].

Definition isValidOTPFormat (otp : string) : bool := Regex.test otpRegex otp.

(** [isOTPExpired(expiryTime)], at current time [now]:
    [new Date() > new Date(expiryTime)]. *)
Definition isOTPExpired (now expiryTime : Z) : bool := Z.ltb expiryTime now.

(** [getOTPExpiryTime()], at current time [now]: fifteen minutes later. *)
Definition getOTPExpiryTime (now : Z) : Z := now + 15 * 60 * 1000.

End Otp.

(** ** [src/utils/jwt.js] *)

Module Jwt.

(** The payload the program signs: [{ userId, mobileNumber }]. *)
Record payload := Payload { userId : Z; mobileNumber : string }.

(** What a token carries: the payload, the issuance time and the expiry
    time (NumericDate: whole seconds since the epoch). *)
Record claims := Claims { body : payload; iat : Z; exp : Z }.

(** A token is either something that is structurally not a token, or a
    set of claims with a signature.  The compact textual serialisation
    is abstracted away. *)
Inductive token :=
| Malformed (raw : string)
| Signed (c : claims) (signature : string).

(** A JavaScript [Error]: [error.name] and [error.message]. *)
Record error := Error { name : string; message : string }.

Definition process_env := gmap string string.

(** [const JWT_SECRET = process.env.JWT_SECRET || '...'] *)
Definition JWT_SECRET (env : process_env) : string :=
  Js.or_default (env !! "JWT_SECRET") "your-secret-key-change-in-production".

(** [const JWT_EXPIRES_IN = process.env.JWT_EXPIRES_IN || '7d'] *)
Definition JWT_EXPIRES_IN (env : process_env) : string :=
  Js.or_default (env !! "JWT_EXPIRES_IN") "7d".

(** The clock of the token library: [Math.floor(Date.now() / 1000)]. *)
Definition clockTimestamp (now : Z) : Z := now / 1000.

Section Library.

(** The keyed signature of a set of claims under a secret. *)
Variable hmac : string -> claims -> string.

(** The number of seconds a time-span string such as ['7d'] denotes. *)
Variable timespan : string -> Z.

(** Modelled from the spec: [jwt.sign] belongs to the package
    [jsonwebtoken], which is imported by [src/utils/jwt.js] and is not
    under src/.  Section 4.3: "signs payload with a process-wide secret
    using a fixed expiry window"; section 3: the token carries "user
    id, mobile number, issuance time, expiry time". *)
Definition sign (p : payload) (secret expiresIn : string) (now : Z)
  : token :=
  let t := clockTimestamp now in
  let c := {| body := p; iat := t; exp := t + timespan expiresIn |} in
  Signed c (hmac secret c).

(** Modelled from the spec: [jwt.verify] of the same package.  Section
    4.3: "validates signature and expiry.  Classifies failures as
    ExpiredError (signature valid, time window elapsed) or
    MalformedError (signature invalid, or structurally not a token)";
    section 3: "the current time must be before the embedded expiry".
    The two error names are the ones [verifyToken] tests for. *)
Definition verify (t : token) (secret : string) (now : Z)
  : error + claims :=
  match t with
  | Malformed _ => inl (Error "JsonWebTokenError" "jwt malformed")
  | Signed c sg =>
      if String.eqb sg (hmac secret c) then
        if Z.leb (exp c) (clockTimestamp now)
        then inl (Error "TokenExpiredError" "jwt expired")
        else inr c
      else inl (Error "JsonWebTokenError" "invalid signature")
  end.

(** Modelled from the spec: [jwt.decode] of the same package.  Section
    4.3: "returns the embedded payload without checking signature or
    expiry". *)
Definition decode (t : token) : option claims :=
  match t with
  | Malformed _ => None
  | Signed c _ => Some c
  end.

Variable env : process_env.

(** [generateToken(payload)], at current time [now]. *)
Definition generateToken (now : Z) (p : payload) : token :=
  sign p (JWT_SECRET env) (JWT_EXPIRES_IN env) now.

(** [verifyToken(token)], at current time [now]: the decoded claims, or
    the error that is thrown. *)
Definition verifyToken (now : Z) (t : token) : error + claims :=
  match verify t (JWT_SECRET env) now with
  | inr c => inr c
  | inl e =>
      if String.eqb (name e) "TokenExpiredError"
      then inl (Error "Error" "Token has expired")
      else if String.eqb (name e) "JsonWebTokenError"
      then inl (Error "Error" "Invalid token")
      else inl e
  end.

(** [decodeToken(token)] *)
Definition decodeToken (t : token) : option claims := decode t.

End Library.

End Jwt.

(** ** [src/middleware/auth.middleware.js] *)

Module Gate.

(** The part of the request the middleware touches:
    [req.headers.authorization] and [req.user]. *)
Record request := Request {
  authorization : option string;
  user : option Jwt.claims
}.

(** What the middleware does with a request: it answers with
    [res.status(s).json({ error })], or it calls [next()] on the request
    it has updated. *)
Inductive outcome :=
| Reject (status : Z) (error : string)
| Next (req : request).

Section Authenticate.

(** [verifyToken] on the text of a token. *)
Variable verifyToken : string -> Jwt.error + Jwt.claims.

(** The token taken from the header:
    [authHeader.startsWith('Bearer ') ? authHeader.slice(7) : authHeader] *)
Definition extract (authHeader : string) : string :=
  if Js.startsWith "Bearer " authHeader
  then Js.slice 7 authHeader
  else authHeader.

Definition authenticate (req : request) : outcome :=
  if Js.not_ (authorization req) then
    Reject 401 "Authorization header is required"
  else
    let authHeader := default "" (authorization req) in
    let token := extract authHeader in
    if Js.falsy token then Reject 401 "Token is required"
    else
      match verifyToken token with
      | inr decoded =>
          Next {| authorization := authorization req;
                  user := Some decoded |}
      | inl e =>
          Reject 401 (Js.or_default (Some (Jwt.message e))
                                    "Invalid or expired token")
      end.

End Authenticate.

End Gate.

(** ** [src/controllers/auth.controller.js] *)

Module Auth.

(** *** The relational store *)

(** A row of [users]: [id], [mobile_number], [created_at]. *)
Record user_row := UserRow {
  u_id : Z;
  u_mobile_number : string;
  u_created_at : Z
}.

(** A row of [otps], without its key [user_id]:
    [mobile_number], [otp], [expiry_time], [created_at]. *)
Record otp_row := OtpRow {
  o_mobile_number : string;
  o_otp : string;
  o_expiry_time : Z;
  o_created_at : Z
}.

Record Db := MkDb {
  users : list user_row;
  users_id_seq : Z;            (* next value of the SERIAL column *)
  otps : gmap Z otp_row        (* UNIQUE(user_id) *)
}.

(** The statements the controller sends through [query]. *)
Inductive stmt :=
| SelectUser (mobile : string)
| InsertUser (mobile : string)
| UpsertOtp (uid : Z) (otp : string) (expiry : Z) (mobile : string)
| SelectOtp (uid : Z) (mobile : string)
| DeleteOtp (uid : Z).

Record World := MkWorld { db : Db; log : list stmt }.

(** *** Responses *)

#[local] Set Warnings "-register-all".

Inductive jvalue :=
| JStr (s : string)
| JBool (b : bool)
| JNum (n : Z)
| JDate (t : Z)
| JToken (t : Jwt.token)
| JObj (fields : list (string * jvalue)).

(** [res.status(status).json(body)] *)
Record response := Response {
  status : Z;
  body : list (string * jvalue)
}.

Definition error_response (st : Z) (msg : string) : response :=
  Response st [("error", JStr msg)].

(** *** Handlers: state passing with early return *)

Inductive step (A : Type) :=
| Continue (a : A)
| Return (r : response).
Arguments Continue {A} a.
Arguments Return {A} r.

Definition M (A : Type) : Type := World -> step A * World.

Definition ret {A} (a : A) : M A := fun w => (Continue a, w).

Definition bind {A B} (m : M A) (k : A -> M B) : M B :=
  fun w =>
    match m w with
    | (Continue a, w') => k a w'
    | (Return r, w') => (Return r, w')
    end.

(** [return res.status(...).json(...)] *)
Definition respond {A} (r : response) : M A := fun w => (Return r, w).

Notation "'let*' x := m 'in' k" := (bind m (fun x => k))
  (at level 10, x name, m at level 100, k at level 200).

(** Runs a handler to the response it sends. *)
Definition run (m : M response) (w : World) : response * World :=
  match m w with
  | (Continue r, w') => (r, w')
  | (Return r, w') => (r, w')
  end.

Definition logged (s : stmt) (w : World) : World :=
  MkWorld (db w) (log w ++ [s]).

(** The rows of [users] with [mobile_number = mobile]. *)
Definition find_user (mobile : string) (d : Db) : list user_row :=
  List.filter (fun u => String.eqb (u_mobile_number u) mobile) (users d).

(** The rows of [otps] with [user_id = uid AND mobile_number = mobile]. *)
Definition find_otp (uid : Z) (mobile : string) (d : Db) : list otp_row :=
  match otps d !! uid with
  | Some row => if String.eqb (o_mobile_number row) mobile then [row] else []
  | None => []
  end.

(** The row that an insertion into [users] creates: the next value of the
    sequence, the number, the time of the store. *)
Definition new_user (now : Z) (mobile : string) (d : Db) : user_row :=
  UserRow (users_id_seq d) mobile now.

(** The store after the insertion of a user. *)
Definition with_user (now : Z) (mobile : string) (d : Db) : Db :=
  MkDb (users d ++ [new_user now mobile d]) (users_id_seq d + 1) (otps d).

(** The row of [otps] for [uid] after the upsert: on a conflict the code,
    the expiry and the creation time are replaced, the number is kept. *)
Definition upserted (now uid : Z) (otp : string) (expiry : Z)
           (mobile : string) (d : Db) : otp_row :=
  match otps d !! uid with
  | Some old => OtpRow (o_mobile_number old) otp expiry now
  | None => OtpRow mobile otp expiry now
  end.

(** The store after the upsert of a challenge. *)
Definition with_otp (now uid : Z) (otp : string) (expiry : Z)
           (mobile : string) (d : Db) : Db :=
  MkDb (users d) (users_id_seq d)
       (<[uid := upserted now uid otp expiry mobile d]> (otps d)).

(** The store after the deletion of the challenge of [uid]. *)
Definition without_otp (uid : Z) (d : Db) : Db :=
  MkDb (users d) (users_id_seq d) (delete uid (otps d)).

(** [SELECT id, mobile_number, created_at FROM users
     WHERE mobile_number = $1] *)
Definition select_user (mobile : string) : M (list user_row) :=
  fun w => (Continue (find_user mobile (db w)), logged (SelectUser mobile) w).

(** [INSERT INTO users (mobile_number) VALUES ($1)
     RETURNING id, mobile_number, created_at] *)
Definition insert_user (now : Z) (mobile : string) : M user_row :=
  fun w =>
    (Continue (new_user now mobile (db w)),
     logged (InsertUser mobile)
       (MkWorld (with_user now mobile (db w)) (log w))).

(** [INSERT INTO otps (user_id, otp, expiry_time, mobile_number)
     VALUES ($1, $2, $3, $4)
     ON CONFLICT (user_id)
     DO UPDATE SET otp = $2, expiry_time = $3,
                   created_at = CURRENT_TIMESTAMP] *)
Definition upsert_otp (now uid : Z) (otp : string) (expiry : Z)
           (mobile : string) : M unit :=
  fun w =>
    (Continue tt,
     logged (UpsertOtp uid otp expiry mobile)
       (MkWorld (with_otp now uid otp expiry mobile (db w)) (log w))).

(** [SELECT otp, expiry_time, created_at FROM otps
     WHERE user_id = $1 AND mobile_number = $2] *)
Definition select_otp (uid : Z) (mobile : string) : M (list otp_row) :=
  fun w =>
    (Continue (find_otp uid mobile (db w)), logged (SelectOtp uid mobile) w).

(** [DELETE FROM otps WHERE user_id = $1] *)
Definition delete_otp (uid : Z) : M unit :=
  fun w =>
    (Continue tt,
     logged (DeleteOtp uid) (MkWorld (without_otp uid (db w)) (log w))).

(** *** The two handlers *)

(** [process.env.NODE_ENV === 'development'
     || !process.env.AWS_LAMBDA_FUNCTION_NAME] *)
Definition isDevelopment (env : Jwt.process_env) : bool :=
  Js.strict_eq (env !! "NODE_ENV") "development"
  || Js.not_ (env !! "AWS_LAMBDA_FUNCTION_NAME").

(** [/^\+?[1-9]\d{1,14}$/] *)
Definition mobileRegex : list Regex.item :=
  [ Regex.Item Regex.plus 0 1;
    Regex.Item Regex.nonzero_digit 1 1;
    Regex.Item Regex.digit 1 14 ].

(** [mobileNumber.startsWith('+') ? mobileNumber : `+91${mobileNumber}`] *)
Definition normalize (mobileNumber : string) : string :=
  if Js.startsWith "+" mobileNumber then mobileNumber
  else "+91" ++ mobileNumber.

(** The answer of [sendOtp] when the challenge is stored. *)
Definition otp_sent (isDev : bool) (normalizedMobile : string)
           (isNewUser : bool) (otp : string) : response :=
  Response 200
    ([ ("success", JBool true);
       ("message",
        JStr (if isDev
              then "OTP sent successfully (DEV MODE - Use test OTP: 123456)"
              else "OTP sent successfully"));
       ("mobileNumber", JStr normalizedMobile);
       ("isNewUser", JBool isNewUser) ]
     ++ (if isDev
         then [ ("otp", JStr otp);
                ("devMode", JBool true);
                ("note", JStr "Using test OTP in development mode") ]
         else [])).

(** The answer of [verifyOtp] when the session is created. *)
Definition otp_verified (token : Jwt.token) (u : user_row)
           (normalizedMobile : string) : response :=
  Response 200
    [ ("success", JBool true);
      ("message", JStr "OTP verified successfully");
      ("token", JToken token);
      ("user",
       JObj [ ("id", JNum (u_id u));
              ("mobileNumber", JStr normalizedMobile);
              ("createdAt", JDate (u_created_at u)) ]) ].

(** The answers that reject a request. *)
Definition invalid_mobile : response :=
  error_response 400 "Invalid mobile number format".

Definition user_not_found : response :=
  error_response 404 "User not found. Please request OTP first".

Definition otp_not_found : response :=
  error_response 400 "OTP not found. Please request a new OTP".

Definition otp_expired : response :=
  error_response 400 "OTP has expired. Please request a new OTP".

Definition otp_invalid : response := error_response 400 "Invalid OTP".

Record sendOtp_body := SendOtpBody { s_mobileNumber : option string }.

Record verifyOtp_body := VerifyOtpBody {
  v_mobileNumber : option string;
  v_otp : option string
}.

Section Handlers.

Variable hmac : string -> Jwt.claims -> string.
Variable timespan : string -> Z.
Variable env : Jwt.process_env.

(** [sendOtp], at current time [now], with [r] the value that
    [Math.random()] returns if it is called. *)
Definition sendOtp (now : Z) (r : Q) (req : sendOtp_body) : M response :=
  if Js.not_ (s_mobileNumber req) then
    respond (error_response 400 "Mobile number is required")
  else
  let mobileNumber := default "" (s_mobileNumber req) in
  if negb (Regex.test mobileRegex mobileNumber) then
    respond invalid_mobile
  else
  let normalizedMobile := normalize mobileNumber in
  let* userResult := select_user normalizedMobile in
  let isNewUser := Nat.eqb (length userResult) 0 in
  let* userId :=
    match userResult with
    | [] =>
        let* newUser := insert_user now normalizedMobile in
        ret (u_id newUser)
    | u :: _ => ret (u_id u)
    end in
  let isDev := isDevelopment env in
  let otp := if isDev then "123456" else Otp.generateOTP r in
  let expiryTime := Otp.getOTPExpiryTime now in
  let* _ := upsert_otp now userId otp expiryTime normalizedMobile in
  respond (otp_sent isDev normalizedMobile isNewUser otp).

(** [verifyOtp], at current time [now]. *)
Definition verifyOtp (now : Z) (req : verifyOtp_body) : M response :=
  if Js.not_ (v_mobileNumber req) || Js.not_ (v_otp req) then
    respond (error_response 400 "Mobile number and OTP are required")
  else
  let mobileNumber := default "" (v_mobileNumber req) in
  let otp := default "" (v_otp req) in
  if negb (Otp.isValidOTPFormat otp) then
    respond (error_response 400 "Invalid OTP format. OTP must be 6 digits")
  else
  let normalizedMobile := normalize mobileNumber in
  let* userResult := select_user normalizedMobile in
  match userResult with
  | [] =>
      respond user_not_found
  | u :: _ =>
  let userId := u_id u in
  let isDev := isDevelopment env in
  let* _ :=
    if isDev && String.eqb otp "123456" then ret tt
    else
      let* otpResult := select_otp userId normalizedMobile in
      match otpResult with
      | [] =>
          respond otp_not_found
      | row :: _ =>
          let storedOtp := o_otp row in
          let expiryTime := o_expiry_time row in
          if Otp.isOTPExpired now expiryTime then
            respond otp_expired
          else if negb (String.eqb storedOtp otp) then
            respond otp_invalid
          else ret tt
      end in
  let token :=
    Jwt.generateToken hmac timespan env now
      (Jwt.Payload userId normalizedMobile) in
  let* _ := delete_otp userId in
  respond (otp_verified token u normalizedMobile)
  end.

End Handlers.

End Auth.

(** ** Shapes the specification speaks of *)

(** Every character of [s] is a decimal digit. *)
Definition all_digits (s : string) : bool :=
  forallb Regex.digit (list_ascii_of_string s).

(** The shape of the source's pattern [/^\+?[1-9]\d{1,14}$/], read off
    character by character: an optional [+], one digit from 1 to 9, then
    between 1 and 14 digits. *)
Definition mobile_shape (s : string) : bool :=
  let l := list_ascii_of_string s in
  let ds := match l with
            | a :: t => if Regex.plus a then t else l
            | [] => l
            end in
  match ds with
  | d :: rest =>
      Regex.nonzero_digit d && forallb Regex.digit rest
      && Nat.leb 1 (length rest) && Nat.leb (length rest) 14
  | [] => false
  end.

(** The shape in the words of the specification: "leading optional [+],
    digits only, length 2-15". *)
Definition plus_digits_2_15 (s : string) : bool :=
  let l := list_ascii_of_string s in
  let ds := match l with
            | a :: t => if Regex.plus a then t else l
            | [] => l
            end in
  forallb Regex.digit ds && Nat.leb 2 (length ds) && Nat.leb (length ds) 15.

(** ** Concrete instances used in the examples *)

Module Sample.

(** A stand-in for the keyed signature: the secret, then the number. *)
Definition hmac (secret : string) (c : Jwt.claims) : string :=
  secret ++ "/" ++ Jwt.mobileNumber (Jwt.body c).

(** A stand-in for the time-span reader: days, written ["7d"], and
    hours, written ["1h"]. *)
Definition timespan (s : string) : Z :=
  if String.eqb s "7d" then 7 * 24 * 3600
  else if String.eqb s "1h" then 3600
  else 0.

(** An environment of a deployed function, with nothing else set. *)
Definition lambda_env : Jwt.process_env :=
  {[ "AWS_LAMBDA_FUNCTION_NAME" := "funds-api" ]}.

(** An environment with nothing set: a local run. *)
Definition local_env : Jwt.process_env := ∅.

Definition alice : Auth.user_row := Auth.UserRow 1 "+919876543210" 1000.

(** One user, no challenge. *)
Definition one_user : Auth.World :=
  Auth.MkWorld (Auth.MkDb [alice] 2 ∅) [].

(** One user with a standing challenge ["482913"] that expires at
    [901000]. *)
Definition pending : Auth.World :=
  Auth.MkWorld
    (Auth.MkDb [alice] 2
               {[ 1 := Auth.OtpRow "+919876543210" "482913" 901000 1000 ]})
    [].

Definition empty_world : Auth.World := Auth.MkWorld (Auth.MkDb [] 1 ∅) [].

(** The store of a local run after a code was requested for the number of
    [alice], with a log that starts afresh. *)
Definition issued_locally : Auth.World :=
  Auth.MkWorld
    (Auth.db (snd (Auth.run (Auth.sendOtp local_env 1000 (1 # 2)
                               (Auth.SendOtpBody (Some "9876543210")))
                            empty_world)))
    [].

Definition alice_payload : Jwt.payload := Jwt.Payload 1 "+919876543210".

(** The token issued to [alice] at time [2000500] in a local run. *)
Definition alice_token : Jwt.token :=
  Jwt.generateToken hmac timespan local_env 2000500 alice_payload.

(** A reader of token texts that knows one text. *)
Definition parse (s : string) : Jwt.token :=
  if String.eqb s "alice.token" then alice_token else Jwt.Malformed s.

End Sample.

(** ** The constraints of the schema, as a property of the store *)

(** What the schema of the two tables promises: [users.mobile_number] is
    UNIQUE; [users.id] is the primary key and comes from a sequence that
    is ahead of every id in use; every row of [otps] belongs to a user
    ([user_id REFERENCES users(id)]), whose number it repeats. *)
Definition consistent (d : Auth.Db) : Prop :=
  List.NoDup (map Auth.u_mobile_number (Auth.users d))
  /\ List.NoDup (map Auth.u_id (Auth.users d))
  /\ (forall u, In u (Auth.users d) -> Auth.u_id u < Auth.users_id_seq d)
  /\ (forall uid row,
         Auth.otps d !! uid = Some row ->
         exists u, In u (Auth.users d)
                   /\ Auth.u_id u = uid
                   /\ Auth.u_mobile_number u = Auth.o_mobile_number row).

(** ** JavaScript values of any type *)

Module Dyn.

(** A value as the code sees it: [undefined], [null], a boolean, a number
    or [NaN], a string, or an object or array, which is truthy and is
    named here by its JSON text. *)
Inductive value :=
| Undefined
| Null
| Bool (b : bool)
| Num (q : Q)
| NaN
| Str (s : string)
| Other (json : string).

(** [!!v] *)
Definition truthy (v : value) : bool :=
  match v with
  | Undefined | Null | NaN => false
  | Bool b => b
  | Num q => negb (Qeq_bool q 0)
  | Str s => negb (Js.falsy s)
  | Other _ => true
  end.

(** [a || b] *)
Definition or (a b : value) : value := if truthy a then a else b.

(** [process.env.NAME]: a string or [undefined]. *)
Definition env_get (env : Jwt.process_env) (name : string) : value :=
  match env !! name with
  | Some s => Str s
  | None => Undefined
  end.

(** [object.name] on an object with the fields [fields]. *)
Definition get (fields : gmap string value) (name : string) : value :=
  match fields !! name with
  | Some v => v
  | None => Undefined
  end.

End Dyn.

(** ** [src/utils/aws-secrets.js] *)

Module Secrets.

(** What [getSecret] returns: the value that [JSON.parse] read from the
    secret string, or a string.  [SecNull] is also the initial value of
    the module variable [cachedSecret]. *)
Inductive secret :=
| SecObj (fields : gmap string Dyn.value)
| SecArr
| SecNull
| SecBool (b : bool)
| SecNum (q : Q)
| SecStr (s : string).

(** [if (secret)] *)
Definition truthy (s : secret) : bool :=
  match s with
  | SecObj _ | SecArr => true
  | SecNull => false
  | SecBool b => b
  | SecNum q => negb (Qeq_bool q 0)
  | SecStr s => negb (Js.falsy s)
  end.

(** The answer of Secrets Manager: [SecretString], a string when present,
    and [SecretBinary], bytes when present. *)
Record response := Response {
  SecretString : option string;
  SecretBinary : option string
}.

(** What a parsed URL offers: [hostname], [port], [pathname], [username],
    [password] and [searchParams.get('ssl')]. *)
Record url := Url {
  hostname : string;
  port : string;
  pathname : string;
  username : string;
  password : string;
  ssl_param : option string
}.

(** The configuration object that [getDbConfig] returns; a field that
    the object does not have is [undefined]. *)
Record dbConfig := DbConfig {
  c_host : Dyn.value;
  c_port : Dyn.value;
  c_database : Dyn.value;
  c_user : Dyn.value;
  c_password : Dyn.value;
  c_ssl : Dyn.value
}.

(** The module variable [cachedSecret], and the requests sent to Secrets
    Manager so far, each with its region and its secret id. *)
Record state := State {
  cachedSecret : secret;
  sent : list (string * string)
}.

Definition initial : state := State SecNull [].

Section Functions.

(** [client.send(command)] for a region and a secret id: the answer, or
    the message of the error it throws. *)
Variable send : string -> string -> string + response.

(** [JSON.parse]: [None] when it throws. *)
Variable JSON_parse : string -> option secret.

(** [Buffer.from(bytes, 'base64').toString('utf-8')] *)
Variable binary_utf8 : string -> string.

(** [parseInt] *)
Variable parseInt : Dyn.value -> Dyn.value.

(** [new URL(value)]: the parsed URL, or the message of the error it
    throws. *)
Variable URL_parse : Dyn.value -> string + url.

(** The message of the [TypeError] that reading a property of [null]
    throws. *)
Variable null_property_error : string.

Variable env : Jwt.process_env.

(** [process.env.AWS_REGION || process.env.AWS_DEFAULT_REGION
     || 'ap-south-1'] *)
Definition region : string :=
  Js.or_default (env !! "AWS_REGION")
                (Js.or_default (env !! "AWS_DEFAULT_REGION") "ap-south-1").

(** [getSecret(secretName)]: the secret, or the message of the error
    thrown, and the state afterwards. *)
Definition getSecret (secretName : string) (st : state)
  : (string + secret) * state :=
  if truthy (cachedSecret st) then (inr (cachedSecret st), st)
  else
    let st1 := State (cachedSecret st) (sent st ++ [(region, secretName)]) in
    match send region secretName with
    | inl e => (inl e, st1)
    | inr resp =>
        if negb (Js.not_ (SecretString resp)) then
          let text := default "" (SecretString resp) in
          let s := match JSON_parse text with
                   | Some v => v
                   | None => SecStr text
                   end in
          (inr s, State s (sent st1))
        else
          match SecretBinary resp with
          | Some bytes =>
              let s := SecStr (binary_utf8 bytes) in
              (inr s, State s (sent st1))
          | None => (inl "Secret value is empty", st1)
          end
    end.

(** [parseConnectionString(connectionString)] *)
Definition parseConnectionString (connectionString : Dyn.value)
  : string + dbConfig :=
  match URL_parse connectionString with
  | inl e => inl ("Invalid connection string format: " ++ e)
  | inr u =>
      inr {| c_host := Dyn.Str (hostname u);
             c_port :=
               parseInt (Dyn.or (Dyn.Str (port u)) (Dyn.Str "5432"));
             c_database :=
               Dyn.or (Dyn.Str (Js.slice 1 (pathname u))) (Dyn.Str "postgres");
             c_user := Dyn.Str (username u);
             c_password := Dyn.Str (password u);
             c_ssl := Dyn.Bool (Js.strict_eq (ssl_param u) "true") |}
  end.

(** The three formats of a secret that is a JSON object, in the order in
    which [getDbConfig] tries them; [None] when none applies. *)
Definition object_config (f : gmap string Dyn.value)
  : option (string + dbConfig) :=
  let secret := Dyn.get f in
  if Dyn.truthy (Dyn.or (secret "host") (secret "endpoint")) then
    Some (inr {| c_host :=
                   Dyn.or (Dyn.or (secret "host") (secret "endpoint"))
                          (secret "db_endpoint");
                 c_port := Dyn.or (secret "port") (Dyn.Num 5432);
                 c_database :=
                   Dyn.or (Dyn.or (Dyn.or (secret "database")
                                          (secret "dbname"))
                                  (secret "db_name"))
                          (Dyn.Str "postgres");
                 c_user :=
                   Dyn.or (Dyn.or (secret "user") (secret "username"))
                          (secret "db_username");
                 c_password :=
                   Dyn.or (secret "password") (secret "db_password");
                 c_ssl := Dyn.or (secret "ssl") (Dyn.Bool false) |})
  else if Dyn.truthy (Dyn.or (secret "connectionString")
                             (secret "connection_string")) then
    Some (parseConnectionString
            (Dyn.or (secret "connectionString") (secret "connection_string")))
  else if Dyn.truthy (Dyn.or (secret "username") (secret "db_username")) then
    Some (inr {| c_host :=
                   Dyn.or (Dyn.or (Dyn.env_get env "DB_ENDPOINT")
                                  (Dyn.env_get env "RDS_ENDPOINT"))
                          (secret "endpoint");
                 c_port :=
                   parseInt (Dyn.or (Dyn.or (Dyn.env_get env "DB_PORT")
                                            (secret "port"))
                                    (Dyn.Str "5432"));
                 c_database :=
                   Dyn.or (Dyn.or (Dyn.or (Dyn.env_get env "DB_NAME")
                                          (secret "database"))
                                  (secret "dbname"))
                          (Dyn.Str "postgres");
                 c_user := Dyn.or (secret "username") (secret "db_username");
                 c_password :=
                   Dyn.or (secret "password") (secret "db_password");
                 c_ssl := Dyn.Undefined |})
  else None.

Definition unable : string :=
  "Unable to parse database configuration from secret".

(** [getDbConfig(secretName)]: the configuration, or the message of the
    error thrown, and the state afterwards.  [typeof null] is
    ['object'], and reading [null.host] throws. *)
Definition getDbConfig (secretName : string) (st : state)
  : (string + dbConfig) * state :=
  match getSecret secretName st with
  | (inl e, st') => (inl e, st')
  | (inr secret, st') =>
      (match secret with
       | SecObj f =>
           match object_config f with
           | Some result => result
           | None => inl unable
           end
       | SecArr => inl unable
       | SecNull => inl null_property_error
       | SecStr s =>
           if Js.startsWith "postgresql://" s
           then parseConnectionString (Dyn.Str s)
           else inl unable
       | SecBool _ | SecNum _ => inl unable
       end,
       st')
  end.

End Functions.

End Secrets.

(** ** [src/config/database.js] *)

Module Database.

(** The option [ssl] of a pool: [false], or
    [{ rejectUnauthorized: false }]. *)
Inductive ssl_option := SslOff | SslNoVerify.

(** The options [connectDB] gives to [new Pool]. *)
Record poolConfig := PoolConfig {
  host : Dyn.value;
  port : Dyn.value;
  database : Dyn.value;
  user : Dyn.value;
  password : Dyn.value;
  max : Z;
  idleTimeoutMillis : Z;
  connectionTimeoutMillis : Z;
  ssl : ssl_option
}.

(** A pool: the options it was made with, and its rank among the pools
    the process has made. *)
Record pool := Pool { pool_rank : nat; pool_config : poolConfig }.

(** The module variable [cachedPool], the number of pools made so far,
    and the state of [aws-secrets.js]. *)
Record state := State {
  cachedPool : option pool;
  pools_made : nat;
  secrets : Secrets.state
}.

Definition initial : state := State None 0 Secrets.initial.

Definition incomplete : string :=
  "Database configuration incomplete. Check environment variables or AWS Secrets Manager.".

Section Functions.

Variable send : string -> string -> string + Secrets.response.
Variable JSON_parse : string -> option Secrets.secret.
Variable binary_utf8 : string -> string.
Variable parseInt : Dyn.value -> Dyn.value.
Variable URL_parse : Dyn.value -> string + Secrets.url.
Variable null_property_error : string.

(** The test of a new pool, [pool.connect()] then [SELECT NOW()]:
    [None] when it passes, or the message of the error thrown. *)
Variable connect : poolConfig -> option string.

Variable env : Jwt.process_env.

(** The configuration of a local run, from the environment. *)
Definition local_config : Secrets.dbConfig :=
  let e := Dyn.env_get env in
  {| Secrets.c_host := Dyn.or (e "DB_HOST") (e "POSTGRES_HOST");
     Secrets.c_port :=
       parseInt (Dyn.or (Dyn.or (e "DB_PORT") (e "POSTGRES_PORT"))
                        (Dyn.Str "5432"));
     Secrets.c_database :=
       Dyn.or (Dyn.or (e "DB_NAME") (e "POSTGRES_DB")) (Dyn.Str "postgres");
     Secrets.c_user := Dyn.or (e "DB_USER") (e "POSTGRES_USER");
     Secrets.c_password := Dyn.or (e "DB_PASSWORD") (e "POSTGRES_PASSWORD");
     Secrets.c_ssl := Dyn.Undefined |}.

(** The options of the pool, from the configuration and [DB_SSL]. *)
Definition pool_options (c : Secrets.dbConfig) : poolConfig :=
  {| host := Secrets.c_host c;
     port := Dyn.or (Secrets.c_port c) (Dyn.Num 5432);
     database := Dyn.or (Secrets.c_database c) (Dyn.Str "postgres");
     user := Secrets.c_user c;
     password := Secrets.c_password c;
     max := 10;
     idleTimeoutMillis := 30000;
     connectionTimeoutMillis := 5000;
     ssl := if Js.strict_eq (env !! "DB_SSL") "false"
               || Js.strict_eq (env !! "DB_SSL") "0"
            then SslOff else SslNoVerify |}.

(** [connectDB()]: the pool, or the message of the error thrown, and the
    state afterwards.  The [catch] clause resets [cachedPool]. *)
Definition connectDB (st : state) : (string + pool) * state :=
  match cachedPool st with
  | Some p => (inr p, st)
  | None =>
      let '(config, sec) :=
        if Auth.isDevelopment env then (inr local_config, secrets st)
        else
          Secrets.getDbConfig send JSON_parse binary_utf8 parseInt URL_parse
            null_property_error env
            (Js.or_default (env !! "DB_SECRET_NAME") "funds-project/postgres")
            (secrets st) in
      match config with
      | inl e => (inl e, State None (pools_made st) sec)
      | inr c =>
          if negb (Dyn.truthy (Secrets.c_host c))
             || negb (Dyn.truthy (Secrets.c_user c))
             || negb (Dyn.truthy (Secrets.c_password c))
          then (inl incomplete, State None (pools_made st) sec)
          else
            let p := Pool (pools_made st) (pool_options c) in
            match connect (pool_options c) with
            | Some e => (inl e, State None (S (pools_made st)) sec)
            | None => (inr p, State (Some p) (S (pools_made st)) sec)
            end
      end
  end.

(** The listener of the event ['error'] of a pool:
    [cachedPool = null]. *)
Definition on_pool_error (st : state) : state :=
  State None (pools_made st) (secrets st).

End Functions.

End Database.

(** ** Concrete surroundings of the configuration, used in the examples *)

Module SampleConfig.

(** A secret in the RDS format: a user name and a password only. *)
Definition rds_secret : Secrets.secret :=
  Secrets.SecObj {[ "username" := Dyn.Str "app"; "password" := Dyn.Str "pw" ]}.

(** Secrets Manager holds one secret, whose text is ["rds"]. *)
Definition send (region secretId : string) : string + Secrets.response :=
  if String.eqb secretId "funds-project/postgres"
  then inr (Secrets.Response (Some "rds") None)
  else inl "ResourceNotFoundException".

Definition JSON_parse (text : string) : option Secrets.secret :=
  if String.eqb text "rds" then Some rds_secret else None.

Definition binary_utf8 (bytes : string) : string := bytes.

Definition parseInt (v : Dyn.value) : Dyn.value :=
  match v with
  | Dyn.Str "5432" => Dyn.Num 5432
  | Dyn.Num q => Dyn.Num q
  | _ => Dyn.NaN
  end.

Definition URL_parse (v : Dyn.value) : string + Secrets.url :=
  inl "Invalid URL".

Definition null_property_error : string :=
  "Cannot read properties of null".

(** Every connection test passes. *)
Definition connect (c : Database.poolConfig) : option string := None.

(** A local run with the three settings that are required. *)
Definition local_env : Jwt.process_env :=
  {[ "DB_HOST" := "localhost"; "DB_USER" := "dev"; "DB_PASSWORD" := "secret" ]}.

(** A deployed function that is told where the database is. *)
Definition lambda_env : Jwt.process_env :=
  {[ "AWS_LAMBDA_FUNCTION_NAME" := "funds-api";
     "DB_ENDPOINT" := "db.internal" ]}.

Definition connectDB (env : Jwt.process_env) :=
  Database.connectDB send JSON_parse binary_utf8 parseInt URL_parse
    null_property_error connect env.

Definition getSecret (env : Jwt.process_env) :=
  Secrets.getSecret send JSON_parse binary_utf8 env.

Definition getDbConfig (env : Jwt.process_env) :=
  Secrets.getDbConfig send JSON_parse binary_utf8 parseInt URL_parse
    null_property_error env.

End SampleConfig.

(** ** [src/controllers/profile.controller.js]: [saveProfile] *)

Module Profile.

(** The fields that [saveProfile] reads from [req.body]; a field that the
    body does not have is [undefined]. *)
Record body := Body {
  firstName : Dyn.value;
  lastName : Dyn.value;
  dateOfBirth : Dyn.value;
  gender : Dyn.value;
  maritalStatus : Dyn.value;
  fatherName : Dyn.value;
  motherName : Dyn.value;
  email : Dyn.value;
  address : Dyn.value;
  city : Dyn.value;
  state : Dyn.value;
  country : Dyn.value;
  zipcode : Dyn.value;
  residentialStatus : Dyn.value;
  durationOfStayYears : Dyn.value;
  durationOfStayMonths : Dyn.value;
  numberOfDependents : Dyn.value;
  educationalQualification : Dyn.value;
  avatar : Dyn.value;
  isActive : Dyn.value
}.

(** [updateFields], [updateValues] and [paramCount]. *)
Record builder := Builder {
  updateFields : list string;
  updateValues : list Dyn.value;
  paramCount : Z
}.

(** [v !== undefined] *)
Definition provided (v : Dyn.value) : bool :=
  match v with Dyn.Undefined => false | _ => true end.

(** [updateFields.push(`col = $${paramCount++}`);
     updateValues.push(v)] *)
Definition push (col : string) (v : Dyn.value) (b : builder) : builder :=
  Builder (updateFields b ++ [col ++ " = $" ++ Otp.toString (paramCount b)])
          (updateValues b ++ [v])
          (paramCount b + 1).

(** [if (v !== undefined) { ... }] *)
Definition push_if_provided (b : builder) (field : string * Dyn.value)
  : builder :=
  if provided (snd field) then push (fst field) (snd field) b else b.

(** The columns that the body can set, with the value for each, in the
    order in which [saveProfile] looks at them. *)
Definition columns (b : body) : list (string * Dyn.value) :=
  [ ("first_name", firstName b);
    ("last_name", lastName b);
    ("date_of_birth", dateOfBirth b);
    ("address", address b);
    ("city", city b);
    ("state", state b);
    ("country", country b);
    ("zipcode", zipcode b);
    ("gender", gender b);
    ("marital_status", maritalStatus b);
    ("father_name", fatherName b);
    ("mother_name", motherName b);
    ("email", email b);
    ("residential_status", residentialStatus b);
    ("duration_of_stay_years", durationOfStayYears b);
    ("duration_of_stay_months", durationOfStayMonths b);
    ("number_of_dependents", numberOfDependents b);
    ("educational_qualification", educationalQualification b);
    ("avatar", avatar b);
    ("is_active", isActive b) ].

(** [list.includes(v)] for a list of strings. *)
Definition includes (l : list string) (v : Dyn.value) : bool :=
  match v with
  | Dyn.Str s => existsb (String.eqb s) l
  | _ => false
  end.

(** What [saveProfile] has done when it reaches the UPDATE statement or
    stops before it: it has answered with an error, or an exception went
    to [next], or it sends
    [UPDATE users SET <assignments> WHERE id = $<n> RETURNING ...] with
    its parameters. *)
Inductive outcome :=
| Answer (status : Z) (error : string)
| Thrown
| Update (assignments : list string) (where_param : Z)
         (params : list Dyn.value).

Section Handler.

(** [!isNaN(new Date(v).getTime())] *)
Variable valid_date : Dyn.value -> bool.

(** [/^[^\s@]+@[^\s@]+\.[^\s@]+$/.test(v)] *)
Variable emailRegex_test : Dyn.value -> bool.

(** The number a value converts to; [None] is [NaN]. *)
Variable to_number : Dyn.value -> option Q.

(** [isNaN(v)] *)
Definition isNaN (v : Dyn.value) : bool :=
  match to_number v with None => true | Some _ => false end.

(** [v < k] *)
Definition less (v : Dyn.value) (k : Q) : bool :=
  match to_number v with
  | Some q => negb (Qle_bool k q)
  | None => false
  end.

(** [v > k] *)
Definition greater (v : Dyn.value) (k : Q) : bool :=
  match to_number v with
  | Some q => negb (Qle_bool q k)
  | None => false
  end.

(** The checks of the body, in the order of the source: the message of
    the first one that fails. *)
Definition validate (b : body) : option string :=
  if negb (Dyn.truthy (firstName b)) || negb (Dyn.truthy (lastName b)) then
    Some "First name and last name are required"
  else if Dyn.truthy (dateOfBirth b) && negb (valid_date (dateOfBirth b)) then
    Some "Invalid date of birth format. Use YYYY-MM-DD"
  else if Dyn.truthy (gender b)
          && negb (includes ["Male"; "Female"; "Other"] (gender b)) then
    Some "Invalid gender. Must be one of: Male, Female, Other"
  else if Dyn.truthy (maritalStatus b)
          && negb (includes ["Single"; "Married"; "Divorced"; "Widowed"]
                            (maritalStatus b)) then
    Some "Invalid marital status. Must be one of: Single, Married, Divorced, Widowed"
  else if Dyn.truthy (residentialStatus b)
          && negb (includes ["Owned"; "Rental"; "Parental"]
                            (residentialStatus b)) then
    Some "Invalid residential status. Must be one of: Owned, Rental, Parental"
  else if Dyn.truthy (email b) && negb (emailRegex_test (email b)) then
    Some "Invalid email format"
  else if provided (durationOfStayYears b)
          && (isNaN (durationOfStayYears b)
              || less (durationOfStayYears b) 0) then
    Some "Duration of stay (years) must be a non-negative number"
  else if provided (durationOfStayMonths b)
          && (isNaN (durationOfStayMonths b)
              || less (durationOfStayMonths b) 0
              || greater (durationOfStayMonths b) 11) then
    Some "Duration of stay (months) must be a number between 0 and 11"
  else if provided (numberOfDependents b)
          && (isNaN (numberOfDependents b)
              || less (numberOfDependents b) 0) then
    Some "Number of dependents must be a non-negative number"
  else None.

(** [saveProfile] up to the UPDATE statement, for the user id of the
    token and a body.  [userCheck] is the number of rows of
    [SELECT id FROM users WHERE id = $1]; [userData] is the column
    [created_by] of the first row of
    [SELECT created_by FROM users WHERE id = $1], if there is a row. *)
Definition saveProfile (userId : Dyn.value) (b : body)
           (userCheck : nat) (userData : option Dyn.value) : outcome :=
  match validate b with
  | Some msg => Answer 400 msg
  | None =>
      if Nat.eqb userCheck 0 then Answer 404 "User not found"
      else
        let built := fold_left push_if_provided (columns b)
                               (Builder [] [] 1) in
        if Nat.eqb (length (updateFields built)) 0 then
          Answer 400 "No profile fields provided to update"
        else
          match userData with
          | None => Thrown
          | Some created_by =>
              let built1 :=
                if negb (Dyn.truthy created_by)
                then push "created_by" userId built
                else built in
              let built2 := push "updated_by" userId built1 in
              Update (updateFields built2 ++ ["updated_at = CURRENT_TIMESTAMP"])
                     (paramCount built2)
                     (updateValues built2 ++ [userId])
          end
  end.

End Handler.

End Profile.

(** The assignments [col = $k] for the columns [cols], numbered from
    [k] on. *)
Fixpoint numbered (k : Z) (cols : list string) : list string :=
  match cols with
  | [] => []
  | col :: rest => (col ++ " = $" ++ Otp.toString k) :: numbered (k + 1) rest
  end.

(** ** A concrete request to [saveProfile], used in the examples *)

Module SampleProfile.

Definition valid_date (v : Dyn.value) : bool :=
  match v with Dyn.Str "1990-01-15" => true | _ => false end.

Definition emailRegex_test (v : Dyn.value) : bool :=
  match v with Dyn.Str "asha@example.com" => true | _ => false end.

Definition to_number (v : Dyn.value) : option Q :=
  match v with
  | Dyn.Num q => Some q
  | Dyn.Null => Some 0%Q
  | Dyn.Bool b => Some (if b then 1 else 0)%Q
  | _ => None
  end.

Definition nothing : Profile.body :=
  Profile.Body Dyn.Undefined Dyn.Undefined Dyn.Undefined Dyn.Undefined
               Dyn.Undefined Dyn.Undefined Dyn.Undefined Dyn.Undefined
               Dyn.Undefined Dyn.Undefined Dyn.Undefined Dyn.Undefined
               Dyn.Undefined Dyn.Undefined Dyn.Undefined Dyn.Undefined
               Dyn.Undefined Dyn.Undefined Dyn.Undefined Dyn.Undefined.

(** Two names, a city that is cleared, three months of stay, and the
    flag [isActive] switched off. *)
Definition request : Profile.body :=
  {| Profile.firstName := Dyn.Str "Asha";
     Profile.lastName := Dyn.Str "Rao";
     Profile.dateOfBirth := Dyn.Undefined;
     Profile.gender := Dyn.Undefined;
     Profile.maritalStatus := Dyn.Undefined;
     Profile.fatherName := Dyn.Undefined;
     Profile.motherName := Dyn.Undefined;
     Profile.email := Dyn.Undefined;
     Profile.address := Dyn.Undefined;
     Profile.city := Dyn.Null;
     Profile.state := Dyn.Undefined;
     Profile.country := Dyn.Undefined;
     Profile.zipcode := Dyn.Undefined;
     Profile.residentialStatus := Dyn.Undefined;
     Profile.durationOfStayYears := Dyn.Undefined;
     Profile.durationOfStayMonths := Dyn.Num 3;
     Profile.numberOfDependents := Dyn.Undefined;
     Profile.educationalQualification := Dyn.Undefined;
     Profile.avatar := Dyn.Undefined;
     Profile.isActive := Dyn.Bool false |}.

Definition saveProfile :=
  Profile.saveProfile valid_date emailRegex_test to_number.

End SampleProfile.

(** ** [src/routes/profile.routes.js]: [PUT /api/profile] *)

Module Routes.

(** What the route has done when [saveProfile] reaches its UPDATE
    statement or stops before it: the gate has answered, or the handler
    has run. *)
Inductive result :=
| Rejected (status : Z) (error : string)
| Handled (o : Profile.outcome).

Section Put.

Variable verifyToken : string -> Jwt.error + Jwt.claims.
Variable valid_date : Dyn.value -> bool.
Variable emailRegex_test : Dyn.value -> bool.
Variable to_number : Dyn.value -> option Q.

(** [router.use(authenticate); router.put('/', saveProfile)], where
    [saveProfile] starts with [const userId = req.user.userId]. *)
Definition put_profile (req : Gate.request) (b : Profile.body)
           (userCheck : nat) (userData : option Dyn.value) : result :=
  match Gate.authenticate verifyToken req with
  | Gate.Reject st e => Rejected st e
  | Gate.Next req' =>
      match Gate.user req' with
      | Some decoded =>
          Handled
            (Profile.saveProfile valid_date emailRegex_test to_number
               (Dyn.Num (inject_Z (Jwt.userId (Jwt.body decoded))))
               b userCheck userData)
      | None => Handled Profile.Thrown
      end
  end.

End Put.

End Routes.

(** * Properties *)

(** ** The sources on concrete inputs *)

Example toString_0 : Otp.toString 0 = "0".
Proof. reflexivity. Qed.

Example toString_1000 : Otp.toString 1000 = "1000".
Proof. reflexivity. Qed.

Example toString_999999 : Otp.toString 999999 = "999999".
Proof. reflexivity. Qed.

Example generateOTP_half : Otp.generateOTP (1 # 2) = "550000".
Proof. reflexivity. Qed.

Example isValidOTPFormat_ok : Otp.isValidOTPFormat "123456" = true.
Proof. reflexivity. Qed.

Example isValidOTPFormat_short : Otp.isValidOTPFormat "12345" = false.
Proof. reflexivity. Qed.

Example isValidOTPFormat_alpha : Otp.isValidOTPFormat "abcdef" = false.
Proof. reflexivity. Qed.

Example isValidOTPFormat_long : Otp.isValidOTPFormat "1234567" = false.
Proof. reflexivity. Qed.

Example normalize_bare : Auth.normalize "9876543210" = "+919876543210".
Proof. reflexivity. Qed.

Example normalize_plus : Auth.normalize "+14155550100" = "+14155550100".
Proof. reflexivity. Qed.

Example mobileRegex_examples :
  Regex.test Auth.mobileRegex "+919876543210" = true
  /\ Regex.test Auth.mobileRegex "9876543210" = true
  /\ Regex.test Auth.mobileRegex "0123456789" = false
  /\ Regex.test Auth.mobileRegex "7" = false
  /\ Regex.test Auth.mobileRegex "+1234567890123456" = false.
Proof. repeat split. Qed.


(** A deployed run, end to end: the first request creates the user and
    stores a code that the answer does not show; a second request
    overwrites the code; the old code is then refused, the new one
    creates the session, and a second use of it finds no challenge. *)
Example deployed_flow :
  let send r w :=
    Auth.run (Auth.sendOtp Sample.lambda_env 1000 r
                (Auth.SendOtpBody (Some "9876543210"))) w in
  let verify o w :=
    Auth.run (Auth.verifyOtp Sample.hmac Sample.timespan Sample.lambda_env
                2000 (Auth.VerifyOtpBody (Some "9876543210") (Some o))) w in
  let w1 := snd (send (1 # 2) Sample.empty_world) in
  let w2 := snd (send (1 # 4) w1) in
  let w3 := snd (verify "325000" w2) in
  fst (send (1 # 2) Sample.empty_world)
  = Auth.otp_sent false "+919876543210" true "550000"
  /\ Auth.body (Auth.otp_sent false "+919876543210" true "550000")
     = [ ("success", Auth.JBool true);
         ("message", Auth.JStr "OTP sent successfully");
         ("mobileNumber", Auth.JStr "+919876543210");
         ("isNewUser", Auth.JBool true) ]
  /\ fst (send (1 # 4) w1)
     = Auth.otp_sent false "+919876543210" false "325000"
  /\ fst (verify "550000" w2) = Auth.otp_invalid
  /\ Auth.status (fst (verify "325000" w2)) = 200
  /\ fst (verify "325000" w3) = Auth.otp_not_found.
Proof. cbn zeta. repeat apply conj; vm_compute; reflexivity. Qed.

(** ** Strings *)


Lemma substring_0_length (s : string) :
  String.substring 0 (String.length s) s = s.
Proof. induction s as [|a s IH]; simpl; congruence. Qed.

Lemma falsy_true (s : string) : Js.falsy s = true <-> s = "".
Proof. destruct s; simpl; split; congruence. Qed.

Lemma falsy_false (s : string) : Js.falsy s = false <-> s <> "".
Proof. destruct s; simpl; split; congruence. Qed.

(** ** The one-time code generator *)








(** ** The format of a mobile number *)

Lemma rep_last (c : ascii -> bool) (hi : nat) :
  forall (lo : nat) (s : list ascii),
    Regex.rep c lo hi (Regex.matches []) s
    = forallb c s && Nat.leb lo (length s) && Nat.leb (length s) hi.
Proof.
  induction hi as [|hi IH]; intros lo s.
  - destruct lo, s; cbn; rewrite ?andb_false_r; reflexivity.
  - destruct s as [|a s].
    + destruct lo; reflexivity.
    + cbn [Regex.rep forallb length]. rewrite IH.
      destruct lo as [|lo];
        cbn [Regex.matches Nat.pred Nat.leb orb];
        destruct (c a), (forallb c s); cbn [andb];
        try reflexivity.
Qed.

Lemma plus_not_nonzero_digit (a : ascii) :
  Regex.plus a = true -> Regex.nonzero_digit a = false.
Proof.
  unfold Regex.plus. intros H. apply Ascii.eqb_eq in H. subst a. reflexivity.
Qed.

Lemma rep_optional (c : ascii -> bool) (k : list ascii -> bool)
      (s : list ascii) :
  Regex.rep c 0 1 k s
  = k s || match s with a :: s' => c a && k s' | [] => false end.
Proof. destruct s; cbn; rewrite ?orb_false_r; reflexivity. Qed.

Lemma rep_once (c : ascii -> bool) (k : list ascii -> bool)
      (s : list ascii) :
  Regex.rep c 1 1 k s
  = match s with a :: s' => c a && k s' | [] => false end.
Proof. destruct s; cbn; rewrite ?orb_false_r; reflexivity. Qed.

Lemma mobileRegex_shape (s : string) :
  Regex.test Auth.mobileRegex s = mobile_shape s.
Proof.
  unfold Regex.test, mobile_shape.
  change (Regex.matches Auth.mobileRegex (list_ascii_of_string s))
    with (Regex.rep Regex.plus 0 1
            (Regex.rep Regex.nonzero_digit 1 1
               (Regex.rep Regex.digit 1 14 (Regex.matches [])))
            (list_ascii_of_string s)).
  rewrite rep_optional, !rep_once.
  destruct (list_ascii_of_string s) as [|a t]; [reflexivity |].
  rewrite rep_once.
  destruct (Regex.plus a) eqn:Hplus.
  - rewrite (plus_not_nonzero_digit a Hplus). cbn [andb orb].
    destruct t as [|d rest]; [reflexivity |].
    rewrite rep_last.
    destruct (Regex.nonzero_digit d), (forallb Regex.digit rest);
      reflexivity.
  - rewrite rep_last. cbn [andb orb]. rewrite orb_false_r.
    destruct (Regex.nonzero_digit a), (forallb Regex.digit t); reflexivity.
Qed.

Lemma mobile_shape_nonempty (m : string) : mobile_shape m = true -> m <> "".
Proof. intros H ->. discriminate H. Qed.

Lemma sendOtp_invalid_mobile env now r (m : string) (w : Auth.World) :
  m <> "" -> mobile_shape m = false ->
  Auth.run (Auth.sendOtp env now r (Auth.SendOtpBody (Some m))) w
  = (Auth.invalid_mobile, w).
Proof.
  intros Hm Hshape. apply falsy_false in Hm.
  unfold Auth.run, Auth.sendOtp. cbn [Auth.s_mobileNumber Js.not_].
  change (default "" (Some m)) with m.
  rewrite Hm, mobileRegex_shape, Hshape. reflexivity.
Qed.

Lemma sendOtp_accepted env now r (m : string) (w : Auth.World) :
  mobile_shape m = true ->
  let nm := Auth.normalize m in
  let isDev := Auth.isDevelopment env in
  let otp := if isDev then "123456" else Otp.generateOTP r in
  let d := Auth.db w in
  let expiry := Otp.getOTPExpiryTime now in
  Auth.run (Auth.sendOtp env now r (Auth.SendOtpBody (Some m))) w
  = match Auth.find_user nm d with
    | [] =>
        let uid := Auth.users_id_seq d in
        (Auth.otp_sent isDev nm true otp,
         Auth.MkWorld
           (Auth.with_otp now uid otp expiry nm (Auth.with_user now nm d))
           (Auth.log w ++ [Auth.SelectUser nm; Auth.InsertUser nm;
                           Auth.UpsertOtp uid otp expiry nm]))
    | u :: _ =>
        (Auth.otp_sent isDev nm false otp,
         Auth.MkWorld
           (Auth.with_otp now (Auth.u_id u) otp expiry nm d)
           (Auth.log w ++ [Auth.SelectUser nm;
                           Auth.UpsertOtp (Auth.u_id u) otp expiry nm]))
    end.
Proof.
  intros Hshape nm isDev otp d expiry.
  pose proof (mobile_shape_nonempty m Hshape) as Hm. apply falsy_false in Hm.
  unfold Auth.run, Auth.sendOtp. cbn [Auth.s_mobileNumber Js.not_].
  change (default "" (Some m)) with m.
  rewrite Hm, mobileRegex_shape, Hshape. cbn [negb].
  fold nm. destruct w as [d0 l0]. cbn [Auth.db Auth.log] in *. subst d.
  unfold Auth.bind, Auth.select_user, Auth.insert_user, Auth.upsert_otp,
    Auth.ret, Auth.respond, Auth.logged.
  cbn [Auth.db Auth.log].
  destruct (Auth.find_user nm d0) as [|u us];
    cbn [Auth.db Auth.log Auth.new_user Auth.u_id length Nat.eqb];
    rewrite <- !app_assoc; reflexivity.
Qed.

(** C6 (amended).  [sendOtp] accepts a mobile number exactly when it has
    the shape of the source's pattern: an optional leading [+], then one
    digit from 1 to 9, then between 1 and 14 further digits.  A number of
    that shape is answered with status 200; any other one is answered with
    a 400 validation error (["Invalid mobile number format"] unless the
    number is empty) and the store is left as it was. *)
Theorem sendOtp_format_validation
        (env : Jwt.process_env) (now : Z) (r : Q) (m : string)
        (w : Auth.World) :
  let answer := Auth.run (Auth.sendOtp env now r (Auth.SendOtpBody (Some m))) w in
  Regex.test Auth.mobileRegex m = mobile_shape m
  /\ (mobile_shape m = true -> Auth.status (fst answer) = 200)
  /\ (mobile_shape m = false ->
      (exists msg, answer = (Auth.error_response 400 msg, w))
      /\ (m <> "" -> answer = (Auth.invalid_mobile, w))).
Proof.
  cbn zeta. split; [apply mobileRegex_shape |]. split.
  - intros Hshape. rewrite (sendOtp_accepted env now r m w Hshape).
    destruct (Auth.find_user _ _); reflexivity.
  - intros Hshape. split.
    + destruct m as [|a m'].
      * eexists. reflexivity.
      * eexists.
        apply (sendOtp_invalid_mobile env now r (String a m') w);
          [discriminate | exact Hshape].
    + intros Hm. apply sendOtp_invalid_mobile; assumption.
Qed.

Lemma sendOtp_format_validation_witness :
  Auth.status
    (fst (Auth.run (Auth.sendOtp ∅ 0 0 (Auth.SendOtpBody (Some "+919876543210")))
                   (Auth.MkWorld (Auth.MkDb [] 1 ∅) []))) = 200
  /\ Auth.run (Auth.sendOtp ∅ 0 0 (Auth.SendOtpBody (Some "98765 43210")))
              (Auth.MkWorld (Auth.MkDb [] 1 ∅) [])
     = (Auth.invalid_mobile, Auth.MkWorld (Auth.MkDb [] 1 ∅) []).
Proof.
  split.
  - apply (sendOtp_format_validation ∅ 0 0%Q "+919876543210"
             (Auth.MkWorld (Auth.MkDb [] 1 ∅) [])).
    reflexivity.
  - apply (sendOtp_format_validation ∅ 0 0%Q "98765 43210"
             (Auth.MkWorld (Auth.MkDb [] 1 ∅) [])).
    + reflexivity.
    + discriminate.
Defined.

(** C6 as stated fails: ["0123456789"] consists of ten digits, yet
    [sendOtp] answers it with the format error, because the source's
    pattern wants a first digit from 1 to 9. *)
Lemma sendOtp_rejects_leading_zero :
  ~ (forall (env : Jwt.process_env) (now : Z) (r : Q) (m : string)
            (w : Auth.World),
        plus_digits_2_15 m = true ->
        fst (Auth.run (Auth.sendOtp env now r (Auth.SendOtpBody (Some m))) w)
        <> Auth.invalid_mobile).
Proof.
  intros H.
  apply (H ∅ 0 0%Q "0123456789" (Auth.MkWorld (Auth.MkDb [] 1 ∅) [])).
  - reflexivity.
  - reflexivity.
Qed.

(** ** The access gate *)

Lemma extract_bearer (t : string) : Gate.extract ("Bearer " ++ t) = t.
Proof.
  unfold Gate.extract, Js.startsWith, Js.slice.
  cbv [String.append]. cbn.
  replace (String.prefix "" t) with true by (destruct t; reflexivity).
  rewrite Nat.sub_0_r. apply substring_0_length.
Qed.

Lemma extract_bare (h : string) :
  Js.startsWith "Bearer " h = false -> Gate.extract h = h.
Proof. unfold Gate.extract. intros ->. reflexivity. Qed.

Lemma authenticate_header (verifyToken : string -> Jwt.error + Jwt.claims)
      (req : Gate.request) (h : string) :
  Gate.authorization req = Some h -> h <> "" ->
  Gate.authenticate verifyToken req
  = if Js.falsy (Gate.extract h) then Gate.Reject 401 "Token is required"
    else match verifyToken (Gate.extract h) with
         | inr decoded => Gate.Next (Gate.Request (Some h) (Some decoded))
         | inl e =>
             Gate.Reject 401
               (Js.or_default (Some (Jwt.message e)) "Invalid or expired token")
         end.
Proof.
  intros Hh Hne. apply falsy_false in Hne.
  unfold Gate.authenticate. rewrite Hh. cbn [Js.not_]. rewrite Hne.
  reflexivity.
Qed.

(** C7.  The gate rejects a request whose [Authorization] header is missing
    or empty, and one whose extracted token is empty, whatever the verifier
    is; after the prefix ["Bearer "] the rest of the header is the token,
    and without it the whole header is; when the verifier accepts the token
    the decoded claims are attached to the request, which is passed on; when
    it throws, the request is rejected with the message of the error; and a
    request is passed on in no other case. *)
Theorem authenticate_gate
        (verifyToken : string -> Jwt.error + Jwt.claims) (req : Gate.request) :
  (Gate.authorization req = None \/ Gate.authorization req = Some "" ->
   Gate.authenticate verifyToken req
   = Gate.Reject 401 "Authorization header is required")
  /\ (forall h, Gate.authorization req = Some h -> h <> "" ->
                Gate.extract h = "" ->
                Gate.authenticate verifyToken req
                = Gate.Reject 401 "Token is required")
  /\ (forall t, Gate.extract ("Bearer " ++ t) = t)
  /\ (forall h, Js.startsWith "Bearer " h = false -> Gate.extract h = h)
  /\ (forall h c, Gate.authorization req = Some h -> Gate.extract h <> "" ->
                  verifyToken (Gate.extract h) = inr c ->
                  Gate.authenticate verifyToken req
                  = Gate.Next (Gate.Request (Some h) (Some c)))
  /\ (forall h e, Gate.authorization req = Some h -> Gate.extract h <> "" ->
                  verifyToken (Gate.extract h) = inl e ->
                  Gate.authenticate verifyToken req
                  = Gate.Reject 401
                      (Js.or_default (Some (Jwt.message e))
                                     "Invalid or expired token"))
  /\ (forall req', Gate.authenticate verifyToken req = Gate.Next req' ->
                   exists h c, Gate.authorization req = Some h
                               /\ Gate.extract h <> ""
                               /\ verifyToken (Gate.extract h) = inr c
                               /\ req' = Gate.Request (Some h) (Some c)).
Proof.
  assert (forall h, Gate.extract h <> "" -> h <> "") as Hnonempty.
  { intros h Hx ->. apply Hx. reflexivity. }
  repeat split.
  - intros [H | H]; unfold Gate.authenticate; rewrite H; reflexivity.
  - intros h Hh Hne Hx.
    rewrite (authenticate_header verifyToken req h Hh Hne), Hx. reflexivity.
  - apply extract_bearer.
  - apply extract_bare.
  - intros h c Hh Hx Hv.
    rewrite (authenticate_header verifyToken req h Hh (Hnonempty h Hx)), Hv.
    apply falsy_false in Hx. rewrite Hx. reflexivity.
  - intros h e Hh Hx Hv.
    rewrite (authenticate_header verifyToken req h Hh (Hnonempty h Hx)), Hv.
    apply falsy_false in Hx. rewrite Hx. reflexivity.
  - intros req' Hnext. unfold Gate.authenticate in Hnext.
    destruct (Gate.authorization req) as [h|] eqn:Hh; [| discriminate].
    cbn [Js.not_] in Hnext.
    destruct (Js.falsy h) eqn:Hf; [discriminate |].
    change (default "" (Some h)) with h in Hnext.
    destruct (Js.falsy (Gate.extract h)) eqn:Hx; [discriminate |].
    destruct (verifyToken (Gate.extract h)) as [e | c] eqn:Hv;
      [discriminate |].
    exists h, c. apply falsy_false in Hx.
    repeat split; try assumption. congruence.
Qed.

(** The gate in front of the token verifier of [Jwt], for a reader
    of token texts that knows the text of one token. *)
Lemma authenticate_gate_witness :
  let gate now :=
    Gate.authenticate
      (fun s => Jwt.verifyToken Sample.hmac Sample.local_env now
                                (Sample.parse s)) in
  let decoded := Jwt.Claims Sample.alice_payload 2000 606800 in
  gate 2001000 (Gate.Request (Some "Bearer alice.token") None)
  = Gate.Next (Gate.Request (Some "Bearer alice.token") (Some decoded))
  /\ gate 2001000 (Gate.Request (Some "alice.token") None)
     = Gate.Next (Gate.Request (Some "alice.token") (Some decoded))
  /\ gate 606800000 (Gate.Request (Some "Bearer alice.token") None)
     = Gate.Reject 401 "Token has expired"
  /\ gate 2001000 (Gate.Request (Some "Bearer x.y.z") None)
     = Gate.Reject 401 "Invalid token"
  /\ gate 2001000 (Gate.Request (Some "Bearer ") None)
     = Gate.Reject 401 "Token is required"
  /\ gate 2001000 (Gate.Request None None)
     = Gate.Reject 401 "Authorization header is required".
Proof.
  cbn zeta.
  pose (vt now := fun s : string =>
          Jwt.verifyToken Sample.hmac Sample.local_env now (Sample.parse s)).
  repeat apply conj.
  - destruct (authenticate_gate (vt 2001000)
                (Gate.Request (Some "Bearer alice.token") None))
      as (_ & _ & _ & _ & H & _).
    apply (H "Bearer alice.token"); [reflexivity | discriminate | reflexivity].
  - destruct (authenticate_gate (vt 2001000)
                (Gate.Request (Some "alice.token") None))
      as (_ & _ & _ & _ & H & _).
    apply (H "alice.token"); [reflexivity | discriminate | reflexivity].
  - destruct (authenticate_gate (vt 606800000)
                (Gate.Request (Some "Bearer alice.token") None))
      as (_ & _ & _ & _ & _ & H & _).
    apply (H "Bearer alice.token" (Jwt.Error "Error" "Token has expired"));
      [reflexivity | discriminate | reflexivity].
  - destruct (authenticate_gate (vt 2001000)
                (Gate.Request (Some "Bearer x.y.z") None))
      as (_ & _ & _ & _ & _ & H & _).
    apply (H "Bearer x.y.z" (Jwt.Error "Error" "Invalid token"));
      [reflexivity | discriminate | reflexivity].
  - destruct (authenticate_gate (vt 2001000)
                (Gate.Request (Some "Bearer ") None))
      as (_ & H & _).
    apply (H "Bearer "); [reflexivity | discriminate | reflexivity].
  - destruct (authenticate_gate (vt 2001000) (Gate.Request None None))
      as (H & _).
    apply H. left. reflexivity.
Defined.

(** ** The session token *)

Lemma verify_signed hmac (c : Jwt.claims) (secret : string) (now : Z) :
  Jwt.verify hmac (Jwt.Signed c (hmac secret c)) secret now
  = if Z.leb (Jwt.exp c) (Jwt.clockTimestamp now)
    then inl (Jwt.Error "TokenExpiredError" "jwt expired")
    else inr c.
Proof. unfold Jwt.verify. rewrite String.eqb_refl. reflexivity. Qed.

Lemma verifyToken_generateToken hmac timespan env (p : Jwt.payload)
      (now now' : Z) :
  let iat := Jwt.clockTimestamp now in
  let exp := iat + timespan (Jwt.JWT_EXPIRES_IN env) in
  Jwt.verifyToken hmac env now' (Jwt.generateToken hmac timespan env now p)
  = if Z.leb exp (Jwt.clockTimestamp now')
    then inl (Jwt.Error "Error" "Token has expired")
    else inr (Jwt.Claims p iat exp).
Proof.
  cbn zeta. unfold Jwt.verifyToken, Jwt.generateToken, Jwt.sign.
  rewrite verify_signed. cbn [Jwt.exp].
  destruct (Z.leb _ _); reflexivity.
Qed.






(** ** The verification of a challenge *)

Lemma valid_format_nonempty (o : string) :
  Otp.isValidOTPFormat o = true -> o <> "".
Proof. intros H ->. discriminate H. Qed.

Ltac handler_steps :=
  unfold Auth.bind, Auth.select_user, Auth.select_otp, Auth.delete_otp,
    Auth.insert_user, Auth.upsert_otp, Auth.ret, Auth.respond, Auth.logged;
  cbn [Auth.db Auth.log].

(** [verifyOtp] in direct style, for a request that carries a number and a
    code of six digits. *)
Lemma verifyOtp_run hmac timespan env (now : Z) (m o : string)
      (w : Auth.World) :
  m <> "" -> Otp.isValidOTPFormat o = true ->
  let nm := Auth.normalize m in
  let d := Auth.db w in
  let verified u stmts :=
    (Auth.otp_verified
       (Jwt.generateToken hmac timespan env now (Jwt.Payload (Auth.u_id u) nm))
       u nm,
     Auth.MkWorld (Auth.without_otp (Auth.u_id u) d)
                  (Auth.log w ++ stmts ++ [Auth.DeleteOtp (Auth.u_id u)])) in
  Auth.run (Auth.verifyOtp hmac timespan env now
              (Auth.VerifyOtpBody (Some m) (Some o))) w
  = match Auth.find_user nm d with
    | [] =>
        (Auth.user_not_found,
         Auth.MkWorld d (Auth.log w ++ [Auth.SelectUser nm]))
    | u :: _ =>
        let uid := Auth.u_id u in
        if Auth.isDevelopment env && String.eqb o "123456"
        then verified u [Auth.SelectUser nm]
        else
          let rejected r :=
            (r, Auth.MkWorld d (Auth.log w ++ [Auth.SelectUser nm;
                                               Auth.SelectOtp uid nm])) in
          match Auth.find_otp uid nm d with
          | [] => rejected Auth.otp_not_found
          | row :: _ =>
              if Otp.isOTPExpired now (Auth.o_expiry_time row)
              then rejected Auth.otp_expired
              else if String.eqb (Auth.o_otp row) o
              then verified u [Auth.SelectUser nm; Auth.SelectOtp uid nm]
              else rejected Auth.otp_invalid
          end
    end.
Proof.
  intros Hm Ho nm d verified.
  pose proof (valid_format_nonempty o Ho) as Ho'.
  apply falsy_false in Hm. apply falsy_false in Ho'.
  unfold Auth.run, Auth.verifyOtp.
  cbn [Auth.v_mobileNumber Auth.v_otp Js.not_].
  change (default "" (Some m)) with m. change (default "" (Some o)) with o.
  rewrite Hm, Ho', Ho. cbn [orb negb].
  fold nm. subst verified d. destruct w as [d l]. handler_steps.
  destruct (Auth.find_user nm d) as [|u us]; [reflexivity |].
  destruct (Auth.isDevelopment env && String.eqb o "123456").
  - cbn. rewrite <- !app_assoc. reflexivity.
  - handler_steps.
    destruct (Auth.find_otp (Auth.u_id u) nm d) as [|row rows].
    + cbn. rewrite <- !app_assoc. reflexivity.
    + destruct (Otp.isOTPExpired now (Auth.o_expiry_time row)).
      * cbn. rewrite <- !app_assoc. reflexivity.
      * destruct (String.eqb (Auth.o_otp row) o);
          cbn; rewrite <- !app_assoc; reflexivity.
Qed.

(** Either the request is turned away before the store is asked anything,
    or it carries a number and a code of six digits. *)
Lemma verifyOtp_validation hmac timespan env (now : Z)
      (req : Auth.verifyOtp_body) :
  (exists msg, forall w,
      Auth.run (Auth.verifyOtp hmac timespan env now req) w
      = (Auth.error_response 400 msg, w))
  \/ (exists m o, req = Auth.VerifyOtpBody (Some m) (Some o)
                  /\ m <> "" /\ Otp.isValidOTPFormat o = true).
Proof.
  destruct req as [mo oo].
  destruct (Js.not_ mo || Js.not_ oo) eqn:Hmissing.
  { left. eexists. intros w. unfold Auth.run, Auth.verifyOtp.
    cbn [Auth.v_mobileNumber Auth.v_otp]. rewrite Hmissing. reflexivity. }
  destruct (Otp.isValidOTPFormat (default "" oo)) eqn:Hfmt.
  - right. apply orb_false_iff in Hmissing as [Hm Ho].
    destruct mo as [m|]; [| discriminate]. destruct oo as [o|]; [| discriminate].
    exists m, o. apply falsy_false in Hm. auto.
  - left. eexists. intros w. unfold Auth.run, Auth.verifyOtp.
    cbn [Auth.v_mobileNumber Auth.v_otp]. rewrite Hmissing, Hfmt.
    reflexivity.
Qed.

(** A session is created only for a known user, and then the challenge of
    that user is gone. *)
Lemma verifyOtp_success hmac timespan env (now : Z)
      (req : Auth.verifyOtp_body) (w : Auth.World) :
  Auth.status (fst (Auth.run (Auth.verifyOtp hmac timespan env now req) w))
  = 200 ->
  exists m o u us,
    req = Auth.VerifyOtpBody (Some m) (Some o)
    /\ m <> "" /\ Otp.isValidOTPFormat o = true
    /\ Auth.find_user (Auth.normalize m) (Auth.db w) = u :: us
    /\ fst (Auth.run (Auth.verifyOtp hmac timespan env now req) w)
       = Auth.otp_verified
           (Jwt.generateToken hmac timespan env now
              (Jwt.Payload (Auth.u_id u) (Auth.normalize m)))
           u (Auth.normalize m)
    /\ Auth.db (snd (Auth.run (Auth.verifyOtp hmac timespan env now req) w))
       = Auth.without_otp (Auth.u_id u) (Auth.db w).
Proof.
  destruct (verifyOtp_validation hmac timespan env now req)
    as [[msg Hrun] | (m & o & -> & Hm & Ho)].
  { rewrite Hrun. cbn. discriminate. }
  rewrite (verifyOtp_run hmac timespan env now m o w Hm Ho). cbn zeta.
  destruct (Auth.find_user _ _) as [|u us] eqn:Hfind;
    [cbn; discriminate |].
  intros Hst. exists m, o, u, us.
  destruct (Auth.isDevelopment env && String.eqb o "123456");
    [cbn; auto 10 |].
  destruct (Auth.find_otp _ _ _) as [|row rows]; [cbn in Hst; discriminate |].
  destruct (Otp.isOTPExpired _ _); [cbn in Hst; discriminate |].
  destruct (String.eqb _ _); [cbn; auto 10 | cbn in Hst; discriminate].
Qed.

(** An attempt that is not answered with status 200 leaves the store as it
    was. *)
Lemma verifyOtp_failure_frame hmac timespan env (now : Z)
      (req : Auth.verifyOtp_body) (w : Auth.World) :
  Auth.status (fst (Auth.run (Auth.verifyOtp hmac timespan env now req) w))
  <> 200 ->
  Auth.db (snd (Auth.run (Auth.verifyOtp hmac timespan env now req) w))
  = Auth.db w.
Proof.
  destruct (verifyOtp_validation hmac timespan env now req)
    as [[msg Hrun] | (m & o & -> & Hm & Ho)].
  { rewrite Hrun. reflexivity. }
  rewrite (verifyOtp_run hmac timespan env now m o w Hm Ho). cbn zeta.
  destruct (Auth.find_user _ _) as [|u us]; [reflexivity |].
  destruct (Auth.isDevelopment env && String.eqb o "123456");
    [cbn; congruence |].
  destruct (Auth.find_otp _ _ _) as [|row rows]; [reflexivity |].
  destruct (Otp.isOTPExpired _ _); [reflexivity |].
  destruct (String.eqb _ _); [cbn; congruence | reflexivity].
Qed.

(** What [verifyOtp] answers, and the store it leaves, depend on the store
    and not on the statements sent before. *)
Lemma verifyOtp_log_irrelevant hmac timespan env (now : Z)
      (req : Auth.verifyOtp_body) (d : Auth.Db) (l1 l2 : list Auth.stmt) :
  let answer l :=
    Auth.run (Auth.verifyOtp hmac timespan env now req) (Auth.MkWorld d l) in
  fst (answer l1) = fst (answer l2)
  /\ Auth.db (snd (answer l1)) = Auth.db (snd (answer l2)).
Proof.
  cbn zeta.
  destruct (verifyOtp_validation hmac timespan env now req)
    as [[msg Hrun] | (m & o & -> & Hm & Ho)].
  { rewrite !Hrun. split; reflexivity. }
  rewrite !(verifyOtp_run hmac timespan env now m o _ Hm Ho). cbn zeta.
  cbn [Auth.db].
  destruct (Auth.find_user _ _) as [|u us]; [split; reflexivity |].
  destruct (Auth.isDevelopment env && String.eqb o "123456");
    [split; reflexivity |].
  destruct (Auth.find_otp _ _ _) as [|row rows]; [split; reflexivity |].
  destruct (Otp.isOTPExpired _ _); [split; reflexivity |].
  destruct (String.eqb _ _); split; reflexivity.
Qed.





(** C2 as stated fails: in development mode a verification with the test
    code removes the standing challenge of the user. *)
Lemma test_otp_deletes_challenge :
  ~ (forall hmac timespan (env : Jwt.process_env) (now : Z) (m : string)
            (w : Auth.World) (u : Auth.user_row) (us : list Auth.user_row),
        Auth.isDevelopment env = true -> m <> "" ->
        Auth.find_user (Auth.normalize m) (Auth.db w) = u :: us ->
        let answer :=
          Auth.run (Auth.verifyOtp hmac timespan env now
                      (Auth.VerifyOtpBody (Some m) (Some "123456"))) w in
        Auth.status (fst answer) = 200
        /\ Auth.otps (Auth.db (snd answer)) !! Auth.u_id u
           = Auth.otps (Auth.db w) !! Auth.u_id u).
Proof.
  intros H.
  specialize (H Sample.hmac Sample.timespan Sample.local_env 2000
                "+919876543210" Sample.issued_locally Sample.alice []
                eq_refl ltac:(discriminate) eq_refl).
  destruct H as [_ H]. vm_compute in H. discriminate H.
Qed.

(** C2 (amended).  In development mode a verification with the test code
    succeeds without a look at the challenge of the user: the only
    statements it sends are the search for the user and the deletion of
    the challenge, and its answer is the same whatever the table of
    challenges holds.  It does remove the challenge of that user, and
    leaves the challenges of the other users and the table of users as
    they were. *)
Theorem test_otp_skips_lookup
        (hmac : string -> Jwt.claims -> string) (timespan : string -> Z)
        (env : Jwt.process_env) (now : Z) (m : string) (w : Auth.World)
        (u : Auth.user_row) (us : list Auth.user_row) :
  Auth.isDevelopment env = true -> m <> "" ->
  Auth.find_user (Auth.normalize m) (Auth.db w) = u :: us ->
  let nm := Auth.normalize m in
  let req := Auth.VerifyOtpBody (Some m) (Some "123456") in
  let answer := Auth.run (Auth.verifyOtp hmac timespan env now req) w in
  fst answer
  = Auth.otp_verified
      (Jwt.generateToken hmac timespan env now (Jwt.Payload (Auth.u_id u) nm))
      u nm
  /\ Auth.log (snd answer)
     = (Auth.log w ++ [Auth.SelectUser nm; Auth.DeleteOtp (Auth.u_id u)])%list
  /\ (forall challenges,
         fst (Auth.run (Auth.verifyOtp hmac timespan env now req)
                (Auth.MkWorld
                   (Auth.MkDb (Auth.users (Auth.db w))
                              (Auth.users_id_seq (Auth.db w)) challenges)
                   (Auth.log w)))
         = fst answer)
  /\ Auth.otps (Auth.db (snd answer)) !! Auth.u_id u = None
  /\ (forall uid, uid <> Auth.u_id u ->
                  Auth.otps (Auth.db (snd answer)) !! uid
                  = Auth.otps (Auth.db w) !! uid)
  /\ Auth.users (Auth.db (snd answer)) = Auth.users (Auth.db w).
Proof.
  intros Hdev Hm Hfind nm req answer. subst answer req nm.
  rewrite (verifyOtp_run hmac timespan env now m "123456" w Hm eq_refl).
  cbn zeta. rewrite Hfind, Hdev.
  cbn [andb String.eqb fst snd Auth.db Auth.log Auth.without_otp Auth.otps
       Auth.users].
  change (String.eqb "123456" "123456") with true. cbn [andb].
  cbn [fst snd Auth.db Auth.log Auth.without_otp Auth.otps Auth.users].
  repeat apply conj.
  - reflexivity.
  - reflexivity.
  - intros challenges.
    rewrite (verifyOtp_run hmac timespan env now m "123456" _ Hm eq_refl).
    cbn zeta. unfold Auth.find_user in *. cbn [Auth.db Auth.users].
    rewrite Hfind, Hdev. reflexivity.
  - apply lookup_delete_eq.
  - intros uid Hne. apply lookup_delete_ne. congruence.
  - reflexivity.
Qed.

Lemma test_otp_skips_lookup_witness :
  let answer :=
    Auth.run (Auth.verifyOtp Sample.hmac Sample.timespan Sample.local_env
                2000500
                (Auth.VerifyOtpBody (Some "+919876543210") (Some "123456")))
             Sample.pending in
  fst answer
  = Auth.otp_verified Sample.alice_token Sample.alice "+919876543210"
  /\ Auth.log (snd answer)
     = [Auth.SelectUser "+919876543210"; Auth.DeleteOtp 1]
  /\ Auth.otps (Auth.db (snd answer)) !! 1 = None.
Proof.
  destruct (test_otp_skips_lookup Sample.hmac Sample.timespan
              Sample.local_env 2000500 "+919876543210" Sample.pending
              Sample.alice [])
    as (Hanswer & Hlog & _ & Hgone & _);
    [reflexivity | discriminate | reflexivity |].
  repeat apply conj; [exact Hanswer | exact Hlog | exact Hgone].
Defined.

(** C3.  An attempt that fails leaves the store as it was.  For a known
    user and a code that is not the test code of development mode: when
    the user has no challenge the answer is ["OTP not found"]; when the
    challenge is past its expiry the answer is ["OTP has expired"]; when
    the code differs from the stored one the answer is ["Invalid OTP"];
    and each time the store is unchanged, so that a later attempt is
    answered as it would have been without the failed one. *)
Theorem failed_verification_keeps_challenge
        (hmac : string -> Jwt.claims -> string) (timespan : string -> Z)
        (env : Jwt.process_env) (now : Z) (req : Auth.verifyOtp_body)
        (w : Auth.World) :
  let answer := Auth.run (Auth.verifyOtp hmac timespan env now req) w in
  (Auth.status (fst answer) <> 200 ->
   Auth.db (snd answer) = Auth.db w
   /\ forall now' req',
       fst (Auth.run (Auth.verifyOtp hmac timespan env now' req') (snd answer))
       = fst (Auth.run (Auth.verifyOtp hmac timespan env now' req') w))
  /\ (forall m o u us,
         req = Auth.VerifyOtpBody (Some m) (Some o) ->
         m <> "" -> Otp.isValidOTPFormat o = true ->
         Auth.find_user (Auth.normalize m) (Auth.db w) = u :: us ->
         Auth.isDevelopment env && String.eqb o "123456" = false ->
         let stored :=
           Auth.find_otp (Auth.u_id u) (Auth.normalize m) (Auth.db w) in
         (stored = [] ->
          fst answer = Auth.otp_not_found /\ Auth.db (snd answer) = Auth.db w)
         /\ (forall row rows,
                stored = row :: rows ->
                Otp.isOTPExpired now (Auth.o_expiry_time row) = true ->
                fst answer = Auth.otp_expired
                /\ Auth.db (snd answer) = Auth.db w)
         /\ (forall row rows,
                stored = row :: rows ->
                Otp.isOTPExpired now (Auth.o_expiry_time row) = false ->
                Auth.o_otp row <> o ->
                fst answer = Auth.otp_invalid
                /\ Auth.db (snd answer) = Auth.db w)).
Proof.
  cbn zeta. split.
  - intros Hfail.
    pose proof (verifyOtp_failure_frame hmac timespan env now req w Hfail)
      as Hframe.
    split; [exact Hframe |].
    intros now' req'.
    destruct (Auth.run (Auth.verifyOtp hmac timespan env now req) w)
      as [r [d' l']].
    cbn [snd Auth.db] in *. subst d'. destruct w as [d l]. cbn [Auth.db].
    apply (verifyOtp_log_irrelevant hmac timespan env now' req' d l' l).
  - intros m o u us -> Hm Ho Hfind Hbypass.
    rewrite (verifyOtp_run hmac timespan env now m o w Hm Ho).
    cbn zeta. rewrite Hfind, Hbypass.
    repeat apply conj.
    + intros ->. split; reflexivity.
    + intros row rows -> ->. split; reflexivity.
    + intros row rows -> -> Hne. apply String.eqb_neq in Hne. rewrite Hne.
      split; reflexivity.
Qed.

Lemma failed_verification_keeps_challenge_witness :
  let attempt now o w :=
    Auth.run (Auth.verifyOtp Sample.hmac Sample.timespan Sample.lambda_env now
                (Auth.VerifyOtpBody (Some "+919876543210") (Some o))) w in
  (fst (attempt 2000 "000000" Sample.pending) = Auth.otp_invalid
   /\ Auth.db (snd (attempt 2000 "000000" Sample.pending))
      = Auth.db Sample.pending)
  /\ (fst (attempt 901001 "482913" Sample.pending) = Auth.otp_expired
      /\ Auth.db (snd (attempt 901001 "482913" Sample.pending))
         = Auth.db Sample.pending)
  /\ (fst (attempt 2000 "482913" Sample.one_user) = Auth.otp_not_found
      /\ Auth.db (snd (attempt 2000 "482913" Sample.one_user))
         = Auth.db Sample.one_user)
  /\ fst (attempt 3000 "482913" (snd (attempt 2000 "000000" Sample.pending)))
     = fst (attempt 3000 "482913" Sample.pending).
Proof.
  cbn zeta. split; [| split; [| split]].
  - destruct (failed_verification_keeps_challenge Sample.hmac Sample.timespan
                Sample.lambda_env 2000
                (Auth.VerifyOtpBody (Some "+919876543210") (Some "000000"))
                Sample.pending) as [_ H].
    destruct (H "+919876543210" "000000" Sample.alice [])
      as (_ & _ & Hinvalid);
      [reflexivity | discriminate | reflexivity | reflexivity | reflexivity |].
    apply (Hinvalid (Auth.OtpRow "+919876543210" "482913" 901000 1000) []);
      [reflexivity | reflexivity | discriminate].
  - destruct (failed_verification_keeps_challenge Sample.hmac Sample.timespan
                Sample.lambda_env 901001
                (Auth.VerifyOtpBody (Some "+919876543210") (Some "482913"))
                Sample.pending) as [_ H].
    destruct (H "+919876543210" "482913" Sample.alice [])
      as (_ & Hexpired & _);
      [reflexivity | discriminate | reflexivity | reflexivity | reflexivity |].
    apply (Hexpired (Auth.OtpRow "+919876543210" "482913" 901000 1000) []);
      reflexivity.
  - destruct (failed_verification_keeps_challenge Sample.hmac Sample.timespan
                Sample.lambda_env 2000
                (Auth.VerifyOtpBody (Some "+919876543210") (Some "482913"))
                Sample.one_user) as [_ H].
    destruct (H "+919876543210" "482913" Sample.alice [])
      as (Habsent & _);
      [reflexivity | discriminate | reflexivity | reflexivity | reflexivity |].
    apply Habsent. reflexivity.
  - destruct (failed_verification_keeps_challenge Sample.hmac Sample.timespan
                Sample.lambda_env 2000
                (Auth.VerifyOtpBody (Some "+919876543210") (Some "000000"))
                Sample.pending) as [H _].
    destruct H as [_ Hretry]; [discriminate |].
    apply (Hretry 3000
             (Auth.VerifyOtpBody (Some "+919876543210") (Some "482913"))).
Defined.

(** C4 as stated fails: at the very instant of the expiry the matching
    code is still accepted. *)
Lemma accepted_at_expiry_instant :
  ~ (forall hmac timespan (env : Jwt.process_env) (now : Z) (m o : string)
            (w : Auth.World) (u : Auth.user_row) (us : list Auth.user_row)
            (row : Auth.otp_row) (rows : list Auth.otp_row),
        m <> "" -> Otp.isValidOTPFormat o = true ->
        Auth.find_user (Auth.normalize m) (Auth.db w) = u :: us ->
        Auth.isDevelopment env && String.eqb o "123456" = false ->
        Auth.find_otp (Auth.u_id u) (Auth.normalize m) (Auth.db w)
        = row :: rows ->
        Auth.o_expiry_time row <= now ->
        fst (Auth.run (Auth.verifyOtp hmac timespan env now
                         (Auth.VerifyOtpBody (Some m) (Some o))) w)
        = Auth.otp_expired).
Proof.
  intros H.
  specialize (H Sample.hmac Sample.timespan Sample.lambda_env 901000
                "+919876543210" "482913" Sample.pending Sample.alice []
                (Auth.OtpRow "+919876543210" "482913" 901000 1000) []
                ltac:(discriminate) eq_refl eq_refl eq_refl eq_refl
                ltac:(cbn; lia)).
  vm_compute in H. discriminate H.
Qed.

(** C4 (amended).  [verifyOtp] rejects a stored challenge as expired
    exactly when the current time is strictly after the stored expiry.  At
    the instant of the expiry, and before it, the challenge is still
    valid: the matching code creates the session. *)
Theorem expired_strictly_after_expiry
        (hmac : string -> Jwt.claims -> string) (timespan : string -> Z)
        (env : Jwt.process_env) (now : Z) (m o : string) (w : Auth.World)
        (u : Auth.user_row) (us : list Auth.user_row)
        (row : Auth.otp_row) (rows : list Auth.otp_row) :
  m <> "" -> Otp.isValidOTPFormat o = true ->
  Auth.find_user (Auth.normalize m) (Auth.db w) = u :: us ->
  Auth.isDevelopment env && String.eqb o "123456" = false ->
  Auth.find_otp (Auth.u_id u) (Auth.normalize m) (Auth.db w) = row :: rows ->
  let answer :=
    Auth.run (Auth.verifyOtp hmac timespan env now
                (Auth.VerifyOtpBody (Some m) (Some o))) w in
  (Otp.isOTPExpired now (Auth.o_expiry_time row) = true
   <-> Auth.o_expiry_time row < now)
  /\ (fst answer = Auth.otp_expired <-> Auth.o_expiry_time row < now)
  /\ (now <= Auth.o_expiry_time row -> Auth.o_otp row = o ->
      fst answer
      = Auth.otp_verified
          (Jwt.generateToken hmac timespan env now
             (Jwt.Payload (Auth.u_id u) (Auth.normalize m)))
          u (Auth.normalize m)).
Proof.
  intros Hm Ho Hfind Hbypass Hstored answer. subst answer.
  rewrite (verifyOtp_run hmac timespan env now m o w Hm Ho).
  cbn zeta. rewrite Hfind, Hbypass, Hstored.
  unfold Otp.isOTPExpired.
  destruct (Z.ltb_spec (Auth.o_expiry_time row) now) as [Hlt | Hge].
  - split; [| split].
    + split; auto.
    + split; [intros _; exact Hlt | reflexivity].
    + intros Hle. lia.
  - split; [| split].
    + split; [discriminate | lia].
    + split; [| lia].
      destruct (String.eqb (Auth.o_otp row) o); cbn; discriminate.
    + intros _ Heq. apply String.eqb_eq in Heq. rewrite Heq. reflexivity.
Qed.

Lemma expired_strictly_after_expiry_witness :
  let attempt now :=
    fst (Auth.run (Auth.verifyOtp Sample.hmac Sample.timespan
                     Sample.lambda_env now
                     (Auth.VerifyOtpBody (Some "+919876543210")
                                         (Some "482913")))
                  Sample.pending) in
  attempt 901001 = Auth.otp_expired
  /\ attempt 901000
     = Auth.otp_verified
         (Jwt.generateToken Sample.hmac Sample.timespan Sample.lambda_env
            901000 Sample.alice_payload)
         Sample.alice "+919876543210".
Proof.
  cbn zeta. split.
  - destruct (expired_strictly_after_expiry Sample.hmac Sample.timespan
                Sample.lambda_env 901001 "+919876543210" "482913"
                Sample.pending Sample.alice []
                (Auth.OtpRow "+919876543210" "482913" 901000 1000) [])
      as (_ & Hexpired & _);
      [discriminate | reflexivity | reflexivity | reflexivity | reflexivity |].
    apply Hexpired. reflexivity.
  - destruct (expired_strictly_after_expiry Sample.hmac Sample.timespan
                Sample.lambda_env 901000 "+919876543210" "482913"
                Sample.pending Sample.alice []
                (Auth.OtpRow "+919876543210" "482913" 901000 1000) [])
      as (_ & _ & Hvalid);
      [discriminate | reflexivity | reflexivity | reflexivity | reflexivity |].
    apply Hvalid; [discriminate | reflexivity].
Defined.

(** C5 as stated fails: in development mode the test code is accepted
    again after it has been accepted once. *)
Lemma test_otp_verifies_twice :
  ~ (forall hmac timespan (env : Jwt.process_env) (now now' : Z)
            (req : Auth.verifyOtp_body) (w : Auth.World),
        let first := Auth.run (Auth.verifyOtp hmac timespan env now req) w in
        Auth.status (fst first) = 200 ->
        fst (Auth.run (Auth.verifyOtp hmac timespan env now' req) (snd first))
        = Auth.otp_not_found).
Proof.
  intros H.
  specialize (H Sample.hmac Sample.timespan Sample.local_env 2000 3000
                (Auth.VerifyOtpBody (Some "+919876543210") (Some "123456"))
                Sample.issued_locally eq_refl).
  vm_compute in H. discriminate H.
Qed.

(** C5 (amended).  A verification that succeeds deletes the challenge of
    the user.  The same request made again afterwards is answered with
    ["OTP not found"], unless development mode is on and the code is the
    test code ["123456"], which is accepted again. *)
Theorem single_use
        (hmac : string -> Jwt.claims -> string) (timespan : string -> Z)
        (env : Jwt.process_env) (now : Z) (req : Auth.verifyOtp_body)
        (w : Auth.World) :
  let first := Auth.run (Auth.verifyOtp hmac timespan env now req) w in
  Auth.status (fst first) = 200 ->
  exists m o u us,
    req = Auth.VerifyOtpBody (Some m) (Some o)
    /\ Auth.find_user (Auth.normalize m) (Auth.db w) = u :: us
    /\ Auth.otps (Auth.db (snd first)) !! Auth.u_id u = None
    /\ Auth.find_otp (Auth.u_id u) (Auth.normalize m) (Auth.db (snd first))
       = []
    /\ forall now',
        fst (Auth.run (Auth.verifyOtp hmac timespan env now' req) (snd first))
        = if Auth.isDevelopment env && String.eqb o "123456"
          then Auth.otp_verified
                 (Jwt.generateToken hmac timespan env now'
                    (Jwt.Payload (Auth.u_id u) (Auth.normalize m)))
                 u (Auth.normalize m)
          else Auth.otp_not_found.
Proof.
  cbn zeta. intros Hok.
  destruct (verifyOtp_success hmac timespan env now req w Hok)
    as (m & o & u & us & -> & Hm & Ho & Hfind & _ & Hdb).
  exists m, o, u, us.
  assert (Auth.find_otp (Auth.u_id u) (Auth.normalize m)
            (Auth.without_otp (Auth.u_id u) (Auth.db w)) = []) as Hgone.
  { unfold Auth.find_otp, Auth.without_otp. cbn [Auth.otps].
    rewrite lookup_delete_eq. reflexivity. }
  repeat apply conj.
  - reflexivity.
  - exact Hfind.
  - rewrite Hdb. apply lookup_delete_eq.
  - rewrite Hdb. exact Hgone.
  - intros now'.
    rewrite (verifyOtp_run hmac timespan env now' m o _ Hm Ho). cbn zeta.
    rewrite Hdb.
    replace (Auth.find_user (Auth.normalize m)
               (Auth.without_otp (Auth.u_id u) (Auth.db w)))
      with (u :: us) by (rewrite <- Hfind; reflexivity).
    rewrite Hgone.
    destruct (Auth.isDevelopment env && String.eqb o "123456"); reflexivity.
Qed.

Lemma single_use_witness :
  let req := Auth.VerifyOtpBody (Some "+919876543210") (Some "482913") in
  let first :=
    Auth.run (Auth.verifyOtp Sample.hmac Sample.timespan Sample.lambda_env
                2000 req) Sample.pending in
  Auth.status (fst first) = 200
  /\ Auth.otps (Auth.db (snd first)) !! 1 = None
  /\ fst (Auth.run (Auth.verifyOtp Sample.hmac Sample.timespan
                      Sample.lambda_env 3000 req) (snd first))
     = Auth.otp_not_found.
Proof.
  cbn zeta.
  destruct (single_use Sample.hmac Sample.timespan Sample.lambda_env 2000
              (Auth.VerifyOtpBody (Some "+919876543210") (Some "482913"))
              Sample.pending)
    as (m & o & u & us & Hreq & Hfind & Hgone & _ & Hagain); [reflexivity |].
  injection Hreq as <- <-.
  cbn in Hfind. injection Hfind as <- _.
  split; [reflexivity |]. split; [exact Hgone |].
  apply (Hagain 3000).
Defined.

(** * Further properties of the sources *)

(** ** Numbers and codes *)

Lemma list_ascii_length (s : string) :
  length (list_ascii_of_string s) = String.length s.
Proof. induction s as [|a s IH]; simpl; congruence. Qed.

Lemma startsWith_plus (m : string) :
  Js.startsWith "+" m
  = match list_ascii_of_string m with
    | a :: _ => Regex.plus a
    | [] => false
    end.
Proof.
  destruct m as [|a m]; [reflexivity |].
  unfold Js.startsWith, Regex.plus.
  cbn [String.prefix list_ascii_of_string].
  destruct (ascii_dec "+" a) as [<- | Hne].
  - destruct m; reflexivity.
  - symmetry. apply Ascii.eqb_neq. congruence.
Qed.

Lemma normalize_plus_prefix (m : string) :
  Js.startsWith "+" (Auth.normalize m) = true.
Proof.
  unfold Auth.normalize.
  destruct (Js.startsWith "+" m) eqn:Hm; [exact Hm |].
  cbv [String.append]. unfold Js.startsWith. cbn. reflexivity.
Qed.

Lemma nonzero_digit_digit (a : ascii) :
  Regex.nonzero_digit a = true -> Regex.digit a = true.
Proof.
  unfold Regex.nonzero_digit, Regex.digit. cbn zeta.
  rewrite !andb_true_iff, !Nat.leb_le. lia.
Qed.

(** X1.  Normalising a number gives a number that starts with [+], and
    normalising again changes nothing.  A number that [sendOtp] accepts
    has at most 18 characters once normalised, so it fits the column
    [mobile_number VARCHAR(20)].  The normalised form of an accepted
    number without [+] passes the format check of [sendOtp] itself only
    when the number has at most 13 digits: with 14 or 15 digits the
    prefix [+91] makes it too long for the pattern. *)
Theorem normalized_number (m : string) :
  mobile_shape m = true ->
  Js.startsWith "+" (Auth.normalize m) = true
  /\ Auth.normalize (Auth.normalize m) = Auth.normalize m
  /\ (String.length (Auth.normalize m) <= 18)%nat
  /\ (Js.startsWith "+" m = false ->
      (Regex.test Auth.mobileRegex (Auth.normalize m) = true
       <-> (String.length m <= 13)%nat)).
Proof.
  intros Hshape.
  pose proof (normalize_plus_prefix m) as Hplus.
  split; [exact Hplus |]. split.
  { unfold Auth.normalize at 1. rewrite Hplus. reflexivity. }
  unfold mobile_shape in Hshape. cbn zeta in Hshape.
  unfold Auth.normalize. rewrite (startsWith_plus m).
  rewrite <- (list_ascii_length m).
  destruct (list_ascii_of_string m) as [|a t] eqn:Hl; [discriminate |].
  destruct (Regex.plus a) eqn:Ha.
  - split; [| discriminate].
    rewrite <- list_ascii_length, Hl.
    destruct t as [|d rest]; [discriminate |].
    rewrite !andb_true_iff, !Nat.leb_le in Hshape. cbn [length]. lia.
  - rewrite !andb_true_iff, !Nat.leb_le in Hshape.
    destruct Hshape as [[[Hnz Hds] Hlo] Hhi].
    assert (list_ascii_of_string ("+91" ++ m)
            = "+"%char :: "9"%char :: "1"%char :: a :: t) as Hn.
    { cbv [String.append]. cbn. rewrite Hl. reflexivity. }
    split.
    + rewrite <- list_ascii_length, Hn. cbn [length]. lia.
    + intros _. rewrite mobileRegex_shape. unfold mobile_shape.
      rewrite Hn. cbn zeta.
      change (Regex.plus "+"%char) with true. cbn iota.
      change (Regex.nonzero_digit "9"%char) with true.
      cbn [forallb andb length].
      change (Regex.digit "1"%char) with true.
      rewrite (nonzero_digit_digit a Hnz), Hds. cbn [andb Nat.leb].
      destruct (Nat.leb_spec (length t) 12); split; intros; try lia;
        try reflexivity; try discriminate.
Qed.

Lemma normalized_number_witness :
  Auth.normalize (Auth.normalize "9876543210") = Auth.normalize "9876543210"
  /\ Regex.test Auth.mobileRegex (Auth.normalize "9876543210") = true
  /\ (String.length (Auth.normalize "123456789012345") <= 18)%nat
  /\ ~ Regex.test Auth.mobileRegex (Auth.normalize "123456789012345") = true.
Proof.
  destruct (normalized_number "9876543210") as (_ & Hidem & _ & Hclosed);
    [reflexivity |].
  destruct (normalized_number "123456789012345") as (_ & _ & Hlen & Hopen);
    [reflexivity |].
  split; [exact Hidem |]. split.
  - apply Hclosed; [reflexivity |]. cbn. lia.
  - split; [exact Hlen |].
    intros Hacc. apply Hopen in Hacc; [| reflexivity]. cbn in Hacc. lia.
Defined.

(** X2.  [isValidOTPFormat] accepts exactly the strings of six
    characters that are all decimal digits. *)
Theorem isValidOTPFormat_iff (s : string) :
  Otp.isValidOTPFormat s = true
  <-> String.length s = 6%nat /\ all_digits s = true.
Proof.
  unfold Otp.isValidOTPFormat, Regex.test, all_digits.
  rewrite <- list_ascii_length.
  change (Regex.matches Otp.otpRegex (list_ascii_of_string s))
    with (Regex.rep Regex.digit 6 6 (Regex.matches [])
            (list_ascii_of_string s)).
  rewrite rep_last, !andb_true_iff, !Nat.leb_le. intuition lia.
Qed.

Lemma isValidOTPFormat_iff_witness :
  Otp.isValidOTPFormat "004217" = true
  /\ ~ Otp.isValidOTPFormat "4217" = true.
Proof.
  split.
  - apply (isValidOTPFormat_iff "004217"). split; reflexivity.
  - intros H. apply (isValidOTPFormat_iff "4217") in H.
    destruct H as [H _]. discriminate H.
Defined.



(** X4.  Production mode is on exactly when [AWS_LAMBDA_FUNCTION_NAME]
    is set to a non-empty string and [NODE_ENV] is not ['development']: a
    function name that is set but empty, or [NODE_ENV] alone, puts the
    process in development mode. *)
Theorem isDevelopment_false_iff (env : Jwt.process_env) :
  Auth.isDevelopment env = false
  <-> env !! "NODE_ENV" <> Some "development"
      /\ exists name, env !! "AWS_LAMBDA_FUNCTION_NAME" = Some name
                      /\ name <> "".
Proof.
  unfold Auth.isDevelopment. rewrite orb_false_iff. split.
  - intros [Hnode Hname]. split.
    + intros Heq. rewrite Heq in Hnode. discriminate Hnode.
    + destruct (env !! "AWS_LAMBDA_FUNCTION_NAME") as [name|];
        [| discriminate].
      exists name. split; [reflexivity |]. apply falsy_false. exact Hname.
  - intros [Hnode (name & -> & Hname)]. split.
    + destruct (env !! "NODE_ENV") as [v|]; [| reflexivity].
      cbn. apply String.eqb_neq. congruence.
    + cbn. apply falsy_false. exact Hname.
Qed.

Lemma isDevelopment_false_iff_witness :
  Auth.isDevelopment Sample.lambda_env = false
  /\ ~ Auth.isDevelopment
        (<["NODE_ENV" := "development"]> Sample.lambda_env) = false.
Proof.
  split.
  - apply (isDevelopment_false_iff Sample.lambda_env). split.
    + discriminate.
    + exists "funds-api". split; [reflexivity | discriminate].
  - intros H. apply isDevelopment_false_iff in H. destruct H as [H _].
    apply H. reflexivity.
Defined.

(** ** The store under the two handlers *)

Lemma find_user_spec (nm : string) (d : Auth.Db) (u : Auth.user_row) :
  In u (Auth.find_user nm d)
  <-> In u (Auth.users d) /\ Auth.u_mobile_number u = nm.
Proof.
  unfold Auth.find_user. rewrite filter_In, String.eqb_eq. reflexivity.
Qed.

Lemma find_user_head (nm : string) (d : Auth.Db) (u : Auth.user_row)
      (us : list Auth.user_row) :
  Auth.find_user nm d = u :: us ->
  In u (Auth.users d) /\ Auth.u_mobile_number u = nm.
Proof.
  intros Hfind. apply find_user_spec. rewrite Hfind. left. reflexivity.
Qed.

Lemma find_user_none (nm : string) (d : Auth.Db) :
  Auth.find_user nm d = [] ->
  ~ In nm (map Auth.u_mobile_number (Auth.users d)).
Proof.
  intros Hfind Hin. apply in_map_iff in Hin as (u & Hnum & Hu).
  assert (In u (Auth.find_user nm d)) as Hf
      by (apply find_user_spec; auto).
  rewrite Hfind in Hf. destruct Hf.
Qed.



(** With unique ids, a row of [otps] repeats the number of the user it is
    keyed by. *)
Lemma consistent_otp_number (d : Auth.Db) (u : Auth.user_row)
      (row : Auth.otp_row) :
  consistent d -> In u (Auth.users d) ->
  Auth.otps d !! Auth.u_id u = Some row ->
  Auth.o_mobile_number row = Auth.u_mobile_number u.
Proof.
  intros (_ & Hids & _ & Hrows) Hu Hrow.
  destruct (Hrows _ _ Hrow) as (u' & Hu' & Hid & Hnum).
  rewrite <- Hnum. f_equal.
  clear - Hids Hu Hu' Hid.
  induction (Auth.users d) as [|v vs IH]; [destruct Hu |].
  cbn [map] in Hids. apply NoDup_cons_iff in Hids as [Hnotin Hids].
  destruct Hu as [-> | Hu], Hu' as [-> | Hu'].
  - reflexivity.
  - exfalso. apply Hnotin. rewrite <- Hid. apply in_map. exact Hu'.
  - exfalso. apply Hnotin. rewrite Hid. apply in_map. exact Hu.
  - apply IH; assumption.
Qed.


Lemma sendOtp_validation (req : Auth.sendOtp_body) :
  (exists msg, forall env now r w,
      Auth.run (Auth.sendOtp env now r req) w
      = (Auth.error_response 400 msg, w))
  \/ (exists m, req = Auth.SendOtpBody (Some m) /\ mobile_shape m = true).
Proof.
  destruct req as [[m|]].
  - destruct (mobile_shape m) eqn:Hshape.
    + right. exists m. auto.
    + left. destruct m as [|a m'].
      * eexists. intros env now r w. reflexivity.
      * eexists. intros env now r w.
        apply (sendOtp_invalid_mobile env now r (String a m') w);
          [discriminate | exact Hshape].
  - left. eexists. intros env now r w. reflexivity.
Qed.

Lemma consistent_with_otp (d : Auth.Db) (u : Auth.user_row) (now : Z)
      (otp : string) (expiry : Z) :
  consistent d -> In u (Auth.users d) ->
  consistent (Auth.with_otp now (Auth.u_id u) otp expiry
                (Auth.u_mobile_number u) d).
Proof.
  intros Hc Hu. pose proof Hc as (Hnum & Hids & Hseq & Hrows).
  unfold consistent, Auth.with_otp.
  cbn [Auth.users Auth.users_id_seq Auth.otps].
  split; [exact Hnum |]. split; [exact Hids |]. split; [exact Hseq |].
  intros uid row Hrow.
  apply lookup_insert_Some in Hrow as [[<- <-] | [Hne Hrow]];
    [| apply (Hrows uid row Hrow)].
  exists u. repeat apply conj; [exact Hu | reflexivity |].
  unfold Auth.upserted.
  destruct (Auth.otps d !! Auth.u_id u) as [old|] eqn:Hold; cbn.
  - symmetry. apply (consistent_otp_number d u old Hc Hu Hold).
  - reflexivity.
Qed.

Lemma consistent_with_user (d : Auth.Db) (now : Z) (nm : string) :
  consistent d -> Auth.find_user nm d = [] ->
  consistent (Auth.with_user now nm d)
  /\ In (Auth.new_user now nm d) (Auth.users (Auth.with_user now nm d)).
Proof.
  intros Hc Hfind. pose proof Hc as (Hnum & Hids & Hseq & Hrows).
  split; [| cbn; apply in_or_app; right; left; reflexivity].
  unfold consistent, Auth.with_user.
  cbn [Auth.users Auth.users_id_seq Auth.otps].
  rewrite !map_app. cbn [map Auth.new_user Auth.u_id Auth.u_mobile_number].
  split; [| split; [| split]].
  - apply List.NoDup_app; [exact Hnum | repeat constructor; intros [] |].
    intros a Ha [<- | []]. apply (find_user_none _ _ Hfind Ha).
  - apply List.NoDup_app; [exact Hids | repeat constructor; intros [] |].
    intros a Ha [<- | []]. apply in_map_iff in Ha as (v & Hv & Hin).
    specialize (Hseq v Hin). lia.
  - intros v Hv. apply in_app_or in Hv as [Hv | [<- | []]].
    + specialize (Hseq v Hv). lia.
    + cbn. lia.
  - intros uid row Hrow. destruct (Hrows uid row Hrow) as (v & Hv & Hid & Hn).
    exists v. repeat apply conj; try assumption.
    apply in_or_app. left. exact Hv.
Qed.

Lemma consistent_empty (seq : Z) : consistent (Auth.MkDb [] seq ∅).
Proof.
  unfold consistent. cbn.
  split; [constructor |]. split; [constructor |].
  split; [intros ? [] |].
  intros uid row Hrow. rewrite lookup_empty in Hrow. discriminate.
Qed.

Lemma sendOtp_consistent env (now : Z) (r : Q) (req : Auth.sendOtp_body)
      (w : Auth.World) :
  consistent (Auth.db w) ->
  consistent (Auth.db (snd (Auth.run (Auth.sendOtp env now r req) w))).
Proof.
  intros Hc.
  destruct (sendOtp_validation req) as [[msg Hrun] | (m & -> & Hshape)].
  { rewrite Hrun. exact Hc. }
  rewrite (sendOtp_accepted env now r m w Hshape). cbn zeta.
  destruct (Auth.find_user (Auth.normalize m) (Auth.db w)) as [|u us]
    eqn:Hfind; cbn [snd Auth.db].
  - destruct (consistent_with_user (Auth.db w) now (Auth.normalize m)
                Hc Hfind) as [Hc' Hnew].
    apply (consistent_with_otp _ _ now _ _ Hc' Hnew).
  - destruct (find_user_head _ _ _ _ Hfind) as [Hu Hnum].
    rewrite <- Hnum. apply consistent_with_otp; assumption.
Qed.

Lemma verifyOtp_consistent hmac timespan env (now : Z)
      (req : Auth.verifyOtp_body) (w : Auth.World) :
  consistent (Auth.db w) ->
  consistent
    (Auth.db (snd (Auth.run (Auth.verifyOtp hmac timespan env now req) w))).
Proof.
  intros Hc.
  destruct (Z.eq_dec (Auth.status
                        (fst (Auth.run
                                (Auth.verifyOtp hmac timespan env now req)
                                w))) 200) as [Hok | Hfail].
  - destruct (verifyOtp_success hmac timespan env now req w Hok)
      as (m & o & u & us & _ & _ & _ & _ & _ & Hdb).
    rewrite Hdb. destruct Hc as (Hnum & Hids & Hseq & Hrows).
    unfold consistent, Auth.without_otp.
    cbn [Auth.users Auth.users_id_seq Auth.otps].
    split; [exact Hnum |]. split; [exact Hids |]. split; [exact Hseq |].
    intros uid row Hrow. apply lookup_delete_Some in Hrow as [_ Hrow].
    apply (Hrows uid row Hrow).
  - rewrite (verifyOtp_failure_frame hmac timespan env now req w Hfail).
    exact Hc.
Qed.



(** X5.  The constraints of the schema hold of the empty store and are
    kept by both handlers, whatever the request is: numbers and ids stay
    unique, the sequence stays ahead of the ids, and every challenge
    belongs to a user and repeats the number of that user. *)
Theorem handlers_keep_store_consistent :
  (forall seq, consistent (Auth.MkDb [] seq ∅))
  /\ (forall env now r req w,
         consistent (Auth.db w) ->
         consistent (Auth.db (snd (Auth.run (Auth.sendOtp env now r req) w))))
  /\ (forall hmac timespan env now req w,
         consistent (Auth.db w) ->
         consistent
           (Auth.db (snd (Auth.run (Auth.verifyOtp hmac timespan env now req)
                                   w)))).
Proof.
  split; [exact consistent_empty |]. split.
  - intros env now r req w. apply sendOtp_consistent.
  - intros hmac timespan env now req w. apply verifyOtp_consistent.
Qed.

Lemma handlers_keep_store_consistent_witness :
  consistent
    (Auth.db
       (snd (Auth.run
               (Auth.verifyOtp Sample.hmac Sample.timespan Sample.local_env
                  2000
                  (Auth.VerifyOtpBody (Some "9876543210") (Some "123456")))
               (snd (Auth.run (Auth.sendOtp Sample.local_env 1000 (1 # 2)
                                 (Auth.SendOtpBody (Some "9876543210")))
                              Sample.empty_world))))).
Proof.
  destruct handlers_keep_store_consistent as (Hempty & Hsend & Hverify).
  apply Hverify. apply Hsend. apply (Hempty 1).
Defined.

Lemma find_user_with_otp (nm : string) (d : Auth.Db) now uid otp expiry mob :
  Auth.find_user nm (Auth.with_otp now uid otp expiry mob d)
  = Auth.find_user nm d.
Proof. reflexivity. Qed.

Lemma find_user_with_user (nm : string) (d : Auth.Db) (now : Z) :
  Auth.find_user nm (Auth.with_user now nm d)
  = (Auth.find_user nm d ++ [Auth.new_user now nm d])%list.
Proof.
  unfold Auth.find_user, Auth.with_user. cbn [Auth.users].
  rewrite List.filter_app. cbn [List.filter Auth.new_user Auth.u_mobile_number].
  rewrite String.eqb_refl. reflexivity.
Qed.





(** X7.  [sendOtp] creates a user exactly when no user has the normalised
    number, and says so in [isNewUser]; the new user gets the next value
    of the sequence.  A second request for the same number, written with
    or without the prefix, at any time and in any mode, finds that user:
    it reports [isNewUser: false] and leaves the table [users] and its
    sequence as the first request left them. *)
Theorem sendOtp_resolves_user
        (env env' : Jwt.process_env) (now now' : Z) (r r' : Q)
        (m m' : string) (w : Auth.World) :
  mobile_shape m = true -> mobile_shape m' = true ->
  Auth.normalize m' = Auth.normalize m ->
  let nm := Auth.normalize m in
  let d := Auth.db w in
  let first :=
    Auth.run (Auth.sendOtp env now r (Auth.SendOtpBody (Some m))) w in
  let second :=
    Auth.run (Auth.sendOtp env' now' r' (Auth.SendOtpBody (Some m')))
             (snd first) in
  (Auth.find_user nm d = [] ->
   In ("isNewUser", Auth.JBool true) (Auth.body (fst first))
   /\ Auth.users (Auth.db (snd first))
      = (Auth.users d ++ [Auth.UserRow (Auth.users_id_seq d) nm now])%list
   /\ Auth.users_id_seq (Auth.db (snd first)) = Auth.users_id_seq d + 1)
  /\ (Auth.find_user nm d <> [] ->
      In ("isNewUser", Auth.JBool false) (Auth.body (fst first))
      /\ Auth.users (Auth.db (snd first)) = Auth.users d
      /\ Auth.users_id_seq (Auth.db (snd first)) = Auth.users_id_seq d)
  /\ In ("isNewUser", Auth.JBool false) (Auth.body (fst second))
  /\ Auth.users (Auth.db (snd second)) = Auth.users (Auth.db (snd first))
  /\ Auth.users_id_seq (Auth.db (snd second))
     = Auth.users_id_seq (Auth.db (snd first)).
Proof.
  intros Hshape Hshape' Hsame nm d first second.
  assert (Auth.find_user nm (Auth.db (snd first)) <> []) as Hfound.
  { subst first. rewrite (sendOtp_accepted env now r m w Hshape). cbn zeta.
    fold nm d.
    destruct (Auth.find_user nm d) as [|u us] eqn:Hfind; cbn [snd Auth.db].
    - rewrite find_user_with_otp, find_user_with_user, Hfind. discriminate.
    - rewrite find_user_with_otp, Hfind. discriminate. }
  split; [| split].
  - intros Hfind. subst first.
    rewrite (sendOtp_accepted env now r m w Hshape). cbn zeta. fold nm d.
    rewrite Hfind. cbn. auto 10.
  - intros Hfind. subst first.
    rewrite (sendOtp_accepted env now r m w Hshape). cbn zeta. fold nm d.
    destruct (Auth.find_user nm d) as [|u us]; [congruence |].
    cbn. auto 10.
  - subst second.
    rewrite (sendOtp_accepted env' now' r' m' (snd first) Hshape').
    cbn zeta. rewrite Hsame. fold nm.
    destruct (Auth.find_user nm (Auth.db (snd first))) as [|u us];
      [congruence |].
    cbn. auto 10.
Qed.

Lemma sendOtp_resolves_user_witness :
  let first :=
    Auth.run (Auth.sendOtp Sample.lambda_env 1000 (1 # 2)
                (Auth.SendOtpBody (Some "9876543210"))) Sample.empty_world in
  let second :=
    Auth.run (Auth.sendOtp Sample.local_env 5000 (1 # 4)
                (Auth.SendOtpBody (Some "+919876543210"))) (snd first) in
  Auth.users (Auth.db (snd first)) = [Sample.alice]
  /\ In ("isNewUser", Auth.JBool false) (Auth.body (fst second))
  /\ Auth.users (Auth.db (snd second)) = [Sample.alice].
Proof.
  cbn zeta.
  destruct (sendOtp_resolves_user Sample.lambda_env Sample.local_env
              1000 5000 (1 # 2) (1 # 4) "9876543210" "+919876543210"
              Sample.empty_world)
    as (Hnew & _ & Hflag & Husers & _);
    [reflexivity | reflexivity | reflexivity |].
  destruct Hnew as (_ & Hcreated & _); [reflexivity |].
  split; [exact Hcreated |]. split; [exact Hflag |].
  rewrite Husers. exact Hcreated.
Defined.



(** X9.  In production mode the answer of [sendOtp] does not show the
    code: it has no field [otp], and it is the same answer whatever the
    random draw, hence whatever code was stored. *)
Theorem production_answer_hides_code
        (env : Jwt.process_env) (now : Z) (r r' : Q)
        (req : Auth.sendOtp_body) (w : Auth.World) :
  Auth.isDevelopment env = false ->
  fst (Auth.run (Auth.sendOtp env now r req) w)
  = fst (Auth.run (Auth.sendOtp env now r' req) w)
  /\ forall v, ~ In ("otp", v)
                    (Auth.body (fst (Auth.run (Auth.sendOtp env now r req) w))).
Proof.
  intros Hprod.
  destruct (sendOtp_validation req) as [[msg Hrun] | (m & -> & Hshape)].
  - rewrite !Hrun. split; [reflexivity |].
    intros v [Hin | []]. discriminate Hin.
  - rewrite (sendOtp_accepted env now r m w Hshape).
    rewrite (sendOtp_accepted env now r' m w Hshape). cbn zeta.
    rewrite Hprod.
    destruct (Auth.find_user _ _); cbn; (split; [reflexivity |]);
      intros v H; repeat (destruct H as [H | H]; [discriminate H |]);
      destruct H.
Qed.

Lemma production_answer_hides_code_witness :
  fst (Auth.run (Auth.sendOtp Sample.lambda_env 1000 (1 # 2)
                   (Auth.SendOtpBody (Some "9876543210")))
                Sample.empty_world)
  = fst (Auth.run (Auth.sendOtp Sample.lambda_env 1000 (1 # 4)
                     (Auth.SendOtpBody (Some "9876543210")))
                  Sample.empty_world).
Proof.
  apply (production_answer_hides_code Sample.lambda_env 1000 (1 # 2) (1 # 4)
           (Auth.SendOtpBody (Some "9876543210")) Sample.empty_world).
  reflexivity.
Defined.

(** X10.  [verifyOtp] creates a session only for a request with a number
    and a code of six digits whose number belongs to a user, and then
    only in two cases: development mode is on and the code is
    ["123456"], or the user has a challenge with that number whose code
    is the one sent and whose expiry is not before the current time.  In
    production mode, then, no session is created without a matching
    challenge that has not expired. *)
Theorem verified_only_with_challenge
        (hmac : string -> Jwt.claims -> string) (timespan : string -> Z)
        (env : Jwt.process_env) (now : Z) (req : Auth.verifyOtp_body)
        (w : Auth.World) :
  Auth.status (fst (Auth.run (Auth.verifyOtp hmac timespan env now req) w))
  = 200 ->
  exists m o u us,
    req = Auth.VerifyOtpBody (Some m) (Some o)
    /\ Otp.isValidOTPFormat o = true
    /\ Auth.find_user (Auth.normalize m) (Auth.db w) = u :: us
    /\ ((Auth.isDevelopment env = true /\ o = "123456")
        \/ exists row rows,
             Auth.find_otp (Auth.u_id u) (Auth.normalize m) (Auth.db w)
             = row :: rows
             /\ Auth.o_otp row = o
             /\ now <= Auth.o_expiry_time row).
Proof.
  intros Hok.
  destruct (verifyOtp_success hmac timespan env now req w Hok)
    as (m & o & u & us & -> & Hm & Ho & Hfind & _ & _).
  exists m, o, u, us. repeat (split; [assumption || reflexivity |]).
  rewrite (verifyOtp_run hmac timespan env now m o w Hm Ho) in Hok.
  cbn zeta in Hok. rewrite Hfind in Hok.
  destruct (Auth.isDevelopment env && String.eqb o "123456") eqn:Hbypass.
  { left. apply andb_true_iff in Hbypass as [Hdev Heq].
    apply String.eqb_eq in Heq. auto. }
  right.
  destruct (Auth.find_otp _ _ _) as [|row rows]; [discriminate Hok |].
  unfold Otp.isOTPExpired in Hok.
  destruct (Z.ltb_spec (Auth.o_expiry_time row) now); [discriminate Hok |].
  destruct (String.eqb (Auth.o_otp row) o) eqn:Heq; [| discriminate Hok].
  apply String.eqb_eq in Heq. exists row, rows. auto.
Qed.

Lemma verified_only_with_challenge_witness :
  exists row rows,
    Auth.find_otp 1 "+919876543210" (Auth.db Sample.pending) = row :: rows
    /\ Auth.o_otp row = "482913" /\ 2000 <= Auth.o_expiry_time row.
Proof.
  destruct (verified_only_with_challenge Sample.hmac Sample.timespan
              Sample.lambda_env 2000
              (Auth.VerifyOtpBody (Some "+919876543210") (Some "482913"))
              Sample.pending)
    as (m & o & u & us & Hreq & _ & Hfind & Hcase); [reflexivity |].
  injection Hreq as <- <-.
  cbn in Hfind. injection Hfind as <- _.
  destruct Hcase as [[Hdev _] | Hrow]; [discriminate Hdev | exact Hrow].
Defined.

(** X11.  Whatever the request and its outcome, [verifyOtp] leaves the
    table [users] and its sequence as they were, and either leaves the
    table [otps] as it was or removes from it the challenge of the one
    user whose number was sent, nothing else: it never adds or changes a
    challenge. *)
Theorem verifyOtp_frame
        (hmac : string -> Jwt.claims -> string) (timespan : string -> Z)
        (env : Jwt.process_env) (now : Z) (req : Auth.verifyOtp_body)
        (w : Auth.World) :
  let after :=
    Auth.db (snd (Auth.run (Auth.verifyOtp hmac timespan env now req) w)) in
  Auth.users after = Auth.users (Auth.db w)
  /\ Auth.users_id_seq after = Auth.users_id_seq (Auth.db w)
  /\ (Auth.otps after = Auth.otps (Auth.db w)
      \/ exists m u us,
           Auth.v_mobileNumber req = Some m
           /\ Auth.find_user (Auth.normalize m) (Auth.db w) = u :: us
           /\ Auth.otps after = delete (Auth.u_id u) (Auth.otps (Auth.db w)))
  /\ (forall uid row, Auth.otps after !! uid = Some row ->
                      Auth.otps (Auth.db w) !! uid = Some row).
Proof.
  cbn zeta.
  destruct (Z.eq_dec (Auth.status
                        (fst (Auth.run
                                (Auth.verifyOtp hmac timespan env now req)
                                w))) 200) as [Hok | Hfail].
  - destruct (verifyOtp_success hmac timespan env now req w Hok)
      as (m & o & u & us & -> & _ & _ & Hfind & _ & Hdb).
    rewrite Hdb. cbn [Auth.without_otp Auth.users Auth.users_id_seq Auth.otps].
    split; [reflexivity |]. split; [reflexivity |]. split.
    + right. exists m, u, us. auto.
    + intros uid row Hrow. apply lookup_delete_Some in Hrow as [_ Hrow].
      exact Hrow.
  - rewrite (verifyOtp_failure_frame hmac timespan env now req w Hfail).
    auto.
Qed.

(** X12.  A request that fails validation is answered before the store
    is asked anything: [verifyOtp] answers a request with a missing or
    empty number or code with ["Mobile number and OTP are required"], and
    one whose code is not six digits with the format error, sending no
    statement at all, whether or not the number belongs to a user; every
    other request starts with the search for the user. *)
Theorem verifyOtp_validates_first
        (hmac : string -> Jwt.claims -> string) (timespan : string -> Z)
        (env : Jwt.process_env) (now : Z) (req : Auth.verifyOtp_body)
        (w : Auth.World) :
  let answer := Auth.run (Auth.verifyOtp hmac timespan env now req) w in
  let missing :=
    Js.not_ (Auth.v_mobileNumber req) || Js.not_ (Auth.v_otp req) in
  let code := default "" (Auth.v_otp req) in
  (missing = true ->
   answer
   = (Auth.error_response 400 "Mobile number and OTP are required", w))
  /\ (missing = false -> Otp.isValidOTPFormat code = false ->
      answer
      = (Auth.error_response 400 "Invalid OTP format. OTP must be 6 digits",
         w))
  /\ (missing = false -> Otp.isValidOTPFormat code = true ->
      exists rest : list Auth.stmt,
        Auth.log (snd answer)
        = (Auth.log w
           ++ Auth.SelectUser
                (Auth.normalize (default "" (Auth.v_mobileNumber req)))
              :: rest)%list).
Proof.
  cbn zeta. split; [| split].
  - intros Hmissing. unfold Auth.run, Auth.verifyOtp. rewrite Hmissing.
    reflexivity.
  - intros Hmissing Hfmt. unfold Auth.run, Auth.verifyOtp.
    rewrite Hmissing, Hfmt. reflexivity.
  - intros Hmissing Hfmt.
    apply orb_false_iff in Hmissing as [Hm Ho].
    destruct req as [[m|] [o|]]; try discriminate.
    cbn [Auth.v_mobileNumber Auth.v_otp] in *.
    change (default "" (Some m)) with m.
    change (default "" (Some o)) with o in Hfmt.
    apply falsy_false in Hm.
    rewrite (verifyOtp_run hmac timespan env now m o w Hm Hfmt). cbn zeta.
    destruct (Auth.find_user _ _) as [|u us]; [exists []; reflexivity |].
    destruct (Auth.isDevelopment env && String.eqb o "123456");
      [eexists; reflexivity |].
    destruct (Auth.find_otp _ _ _) as [|row rows]; [eexists; reflexivity |].
    destruct (Otp.isOTPExpired _ _); [eexists; reflexivity |].
    destruct (String.eqb _ _); eexists; reflexivity.
Qed.

Lemma verifyOtp_validates_first_witness :
  let attempt m o :=
    Auth.run (Auth.verifyOtp Sample.hmac Sample.timespan Sample.local_env
                2000 (Auth.VerifyOtpBody m o)) Sample.pending in
  attempt (Some "+919876543210") (Some "")
  = (Auth.error_response 400 "Mobile number and OTP are required",
     Sample.pending)
  /\ attempt (Some "+919876543210") (Some "12345a")
     = (Auth.error_response 400 "Invalid OTP format. OTP must be 6 digits",
        Sample.pending).
Proof.
  cbn zeta. split.
  - apply (verifyOtp_validates_first Sample.hmac Sample.timespan
             Sample.local_env 2000
             (Auth.VerifyOtpBody (Some "+919876543210") (Some ""))
             Sample.pending).
    reflexivity.
  - apply (verifyOtp_validates_first Sample.hmac Sample.timespan
             Sample.local_env 2000
             (Auth.VerifyOtpBody (Some "+919876543210") (Some "12345a"))
             Sample.pending); reflexivity.
Defined.

Lemma verifyOtp_frame_witness :
  let after :=
    Auth.db (snd (Auth.run (Auth.verifyOtp Sample.hmac Sample.timespan
                              Sample.lambda_env 2000
                              (Auth.VerifyOtpBody (Some "+919876543210")
                                                  (Some "000000")))
                           Sample.pending)) in
  Auth.users after = [Sample.alice]
  /\ Auth.otps (Auth.db Sample.pending) !! 1
     = Some (Auth.OtpRow "+919876543210" "482913" 901000 1000).
Proof.
  cbn zeta.
  destruct (verifyOtp_frame Sample.hmac Sample.timespan Sample.lambda_env
              2000
              (Auth.VerifyOtpBody (Some "+919876543210") (Some "000000"))
              Sample.pending) as (Husers & _ & _ & Hkept).
  split; [exact Husers |].
  apply Hkept. reflexivity.
Defined.

(** ** From the verified code to the protected routes *)

(** X13.  The token in the answer of a successful [verifyOtp] opens the
    gate.  Presented in the [Authorization] header, with or without the
    prefix ["Bearer "], it makes [authenticate] pass the request on with
    the id and the normalised number of the user attached, for as long as
    the clock of the token is before its expiry; from then on the gate
    answers 401 ["Token has expired"]. *)
Theorem session_token_opens_gate
        (hmac : string -> Jwt.claims -> string) (timespan : string -> Z)
        (env : Jwt.process_env) (now : Z) (req : Auth.verifyOtp_body)
        (w : Auth.World) :
  let answer := fst (Auth.run (Auth.verifyOtp hmac timespan env now req) w) in
  Auth.status answer = 200 ->
  exists token m u us,
    In ("token", Auth.JToken token) (Auth.body answer)
    /\ Auth.v_mobileNumber req = Some m
    /\ Auth.find_user (Auth.normalize m) (Auth.db w) = u :: us
    /\ forall (parse : string -> Jwt.token) (h : string) (now' : Z),
        parse (Gate.extract h) = token -> Gate.extract h <> "" ->
        let gate :=
          Gate.authenticate
            (fun s => Jwt.verifyToken hmac env now' (parse s))
            (Gate.Request (Some h) None) in
        let expiry :=
          Jwt.clockTimestamp now + timespan (Jwt.JWT_EXPIRES_IN env) in
        (Jwt.clockTimestamp now' < expiry ->
         gate
         = Gate.Next
             (Gate.Request (Some h)
                (Some (Jwt.Claims
                         (Jwt.Payload (Auth.u_id u) (Auth.normalize m))
                         (Jwt.clockTimestamp now) expiry))))
        /\ (expiry <= Jwt.clockTimestamp now' ->
            gate = Gate.Reject 401 "Token has expired").
Proof.
  cbn zeta. intros Hok.
  destruct (verifyOtp_success hmac timespan env now req w Hok)
    as (m & o & u & us & -> & _ & _ & Hfind & Hanswer & _).
  eexists _, m, u, us.
  split; [rewrite Hanswer; cbn; auto 10 |].
  split; [reflexivity |]. split; [exact Hfind |].
  intros parse h now' Hparse Hx.
  assert (h <> "") as Hh by (intros ->; apply Hx; reflexivity).
  rewrite (authenticate_header _ (Gate.Request (Some h) None) h eq_refl Hh).
  apply falsy_false in Hx. rewrite Hx, Hparse.
  rewrite verifyToken_generateToken. cbn zeta.
  split.
  - intros Hbefore. apply Z.leb_gt in Hbefore. rewrite Hbefore. reflexivity.
  - intros Hafter. apply Z.leb_le in Hafter. rewrite Hafter. reflexivity.
Qed.

Lemma session_token_opens_gate_witness :
  Gate.authenticate
    (fun s => Jwt.verifyToken Sample.hmac Sample.local_env 3000000
                              (Sample.parse s))
    (Gate.Request (Some "Bearer alice.token") None)
  = Gate.Next (Gate.Request (Some "Bearer alice.token")
                 (Some (Jwt.Claims Sample.alice_payload 2000 606800))).
Proof.
  destruct (session_token_opens_gate Sample.hmac Sample.timespan
              Sample.local_env 2000500
              (Auth.VerifyOtpBody (Some "9876543210") (Some "123456"))
              Sample.one_user)
    as (token & m & u & us & Htoken & Hm & Hfind & Hgate); [reflexivity |].
  injection Hm as <-. cbn in Hfind. injection Hfind as <- _.
  cbn in Htoken.
  destruct Htoken as [H | [H | [H | [H | []]]]]; try discriminate H.
  injection H as <-.
  destruct (Hgate Sample.parse "Bearer alice.token" 3000000)
    as [Hopen _]; [reflexivity | discriminate |].
  apply Hopen. reflexivity.
Defined.

(** ** The connection pool and the secret *)

Lemma truthy_or (a b : Dyn.value) :
  Dyn.truthy (Dyn.or a b) = Dyn.truthy a || Dyn.truthy b.
Proof. unfold Dyn.or. destruct (Dyn.truthy a) eqn:Ha; [exact Ha | reflexivity]. Qed.

Lemma truthy_env_get (env : Jwt.process_env) (name : string) :
  Dyn.truthy (Dyn.env_get env name) = negb (Js.not_ (env !! name)).
Proof. unfold Dyn.env_get. destruct (env !! name); reflexivity. Qed.

Lemma truthy_env_or (env : Jwt.process_env) (a b : string) :
  Dyn.truthy (Dyn.or (Dyn.env_get env a) (Dyn.env_get env b))
  = negb (Js.not_ (env !! a) && Js.not_ (env !! b)).
Proof.
  rewrite truthy_or, !truthy_env_get.
  destruct (Js.not_ (env !! a)), (Js.not_ (env !! b)); reflexivity.
Qed.

Section Configuration.

Variable send : string -> string -> string + Secrets.response.
Variable JSON_parse : string -> option Secrets.secret.
Variable binary_utf8 : string -> string.
Variable parseInt : Dyn.value -> Dyn.value.
Variable URL_parse : Dyn.value -> string + Secrets.url.
Variable null_property_error : string.
Variable connect : Database.poolConfig -> option string.

Local Abbreviation connectDB :=
  (Database.connectDB send JSON_parse binary_utf8 parseInt URL_parse
     null_property_error connect).
Local Abbreviation getSecret := (Secrets.getSecret send JSON_parse binary_utf8).
Local Abbreviation getDbConfig :=
  (Secrets.getDbConfig send JSON_parse binary_utf8 parseInt URL_parse
     null_property_error).

(** What [connectDB] does when no pool is cached, in direct style. *)
Lemma connectDB_uncached (env : Jwt.process_env) (st : Database.state) :
  Database.cachedPool st = None ->
  exists (config : string + Secrets.dbConfig) (sec : Secrets.state),
    (config, sec)
    = (if Auth.isDevelopment env
       then (inr (Database.local_config parseInt env), Database.secrets st)
       else getDbConfig env
              (Js.or_default (env !! "DB_SECRET_NAME")
                             "funds-project/postgres")
              (Database.secrets st))
    /\ connectDB env st
       = match config with
         | inl e => (inl e, Database.State None (Database.pools_made st) sec)
         | inr c =>
             if negb (Dyn.truthy (Secrets.c_host c))
                || negb (Dyn.truthy (Secrets.c_user c))
                || negb (Dyn.truthy (Secrets.c_password c))
             then (inl Database.incomplete,
                   Database.State None (Database.pools_made st) sec)
             else
               match connect (Database.pool_options env c) with
               | Some e =>
                   (inl e,
                    Database.State None (S (Database.pools_made st)) sec)
               | None =>
                   let p := Database.Pool (Database.pools_made st)
                                          (Database.pool_options env c) in
                   (inr p,
                    Database.State (Some p) (S (Database.pools_made st)) sec)
               end
         end.
Proof.
  intros Hnone. unfold Database.connectDB. rewrite Hnone.
  destruct (if Auth.isDevelopment env
            then (inr (Database.local_config parseInt env),
                  Database.secrets st)
            else getDbConfig env
                   (Js.or_default (env !! "DB_SECRET_NAME")
                                  "funds-project/postgres")
                   (Database.secrets st)) as [config sec] eqn:Hconfig.
  exists config, sec. split; [reflexivity |].
  destruct config as [e | c]; [reflexivity |].
  destruct (negb _ || negb _ || negb _); [reflexivity |].
  destruct (connect _); reflexivity.
Qed.


(** X15.  A pool that [connectDB] makes has passed the connection test
    and is well formed: host, user and password are set, the port and
    the database are set too (5432 and ['postgres'] stand in for a port
    or a name that is missing, zero, empty or not a number), it holds at
    most ten clients, and whether it uses SSL depends on [DB_SSL] alone:
    SSL is off exactly when [DB_SSL] is ['false'] or ['0'], whatever the
    secret or the connection string says.  It is a new pool, counted as
    such. *)
Theorem connectDB_makes_pool (env : Jwt.process_env) (st : Database.state)
        (p : Database.pool) :
  Database.cachedPool st = None ->
  fst (connectDB env st) = inr p ->
  let c := Database.pool_config p in
  Database.pool_rank p = Database.pools_made st
  /\ Database.pools_made (snd (connectDB env st))
     = S (Database.pools_made st)
  /\ connect c = None
  /\ Dyn.truthy (Database.host c) = true
  /\ Dyn.truthy (Database.user c) = true
  /\ Dyn.truthy (Database.password c) = true
  /\ Dyn.truthy (Database.port c) = true
  /\ Dyn.truthy (Database.database c) = true
  /\ Database.max c = 10
  /\ (Database.ssl c = Database.SslOff
      <-> env !! "DB_SSL" = Some "false" \/ env !! "DB_SSL" = Some "0").
Proof.
  intros Hcache.
  destruct (connectDB_uncached env st Hcache) as (config & sec & _ & ->).
  destruct config as [e | c]; [discriminate |].
  destruct (negb (Dyn.truthy (Secrets.c_host c))
            || negb (Dyn.truthy (Secrets.c_user c))
            || negb (Dyn.truthy (Secrets.c_password c))) eqn:Hvalid;
    [discriminate |].
  destruct (connect (Database.pool_options env c)) eqn:Hconnect;
    [discriminate |].
  cbn zeta. cbn [fst snd]. intros Hp. injection Hp as <-.
  cbn [Database.pool_config Database.pool_rank Database.pools_made].
  apply orb_false_iff in Hvalid as [Hvalid Hpw].
  apply orb_false_iff in Hvalid as [Hhost Huser].
  apply negb_false_iff in Hhost, Huser, Hpw.
  split; [reflexivity |]. split; [reflexivity |]. split; [exact Hconnect |].
  cbn [Database.pool_options Database.host Database.user Database.password
       Database.port Database.database Database.max Database.ssl].
  split; [exact Hhost |]. split; [exact Huser |]. split; [exact Hpw |].
  split; [rewrite truthy_or; apply orb_true_r |].
  split; [rewrite truthy_or; apply orb_true_r |].
  split; [reflexivity |].
  unfold Js.strict_eq.
  destruct (env !! "DB_SSL") as [v|]; cbn.
  - destruct (String.eqb_spec v "false") as [-> | Hf]; cbn.
    + split; auto.
    + destruct (String.eqb_spec v "0") as [-> | H0]; cbn.
      * split; auto.
      * split; [discriminate |]. intros [H | H]; congruence.
  - split; [discriminate |]. intros [H | H]; discriminate.
Qed.

(** X16.  In a local run with no pool cached, [connectDB] never asks
    Secrets Manager, and it throws the error of an incomplete
    configuration, without making a pool, exactly when the host, the user
    or the password is missing: each is read from its [DB_] variable,
    or from its [POSTGRES_] variable when the first is unset or
    empty. *)
Theorem local_configuration_required
        (env : Jwt.process_env) (st : Database.state) :
  Auth.isDevelopment env = true ->
  Database.cachedPool st = None ->
  let missing a b := Js.not_ (env !! a) && Js.not_ (env !! b) in
  Database.secrets (snd (connectDB env st)) = Database.secrets st
  /\ (missing "DB_HOST" "POSTGRES_HOST"
      || missing "DB_USER" "POSTGRES_USER"
      || missing "DB_PASSWORD" "POSTGRES_PASSWORD" = true
      <-> connectDB env st
          = (inl Database.incomplete,
             Database.State None (Database.pools_made st)
                            (Database.secrets st))).
Proof.
  intros Hdev Hcache. cbn zeta.
  destruct (connectDB_uncached env st Hcache)
    as (config & sec & Hconfig & ->).
  rewrite Hdev in Hconfig. injection Hconfig as -> ->.
  cbn [Database.local_config Secrets.c_host Secrets.c_user
       Secrets.c_password].
  rewrite !truthy_env_or, !negb_involutive.
  destruct (Js.not_ (env !! "DB_HOST") && Js.not_ (env !! "POSTGRES_HOST")
            || Js.not_ (env !! "DB_USER") && Js.not_ (env !! "POSTGRES_USER")
            || Js.not_ (env !! "DB_PASSWORD")
               && Js.not_ (env !! "POSTGRES_PASSWORD")).
  - cbn [snd Database.secrets]. split; [reflexivity |]. split; reflexivity.
  - destruct (connect _); cbn [snd Database.secrets];
      (split; [reflexivity |]); (split; [discriminate |]);
      intros Heq; injection Heq; intros; lia.
Qed.

(** What [getSecret] does when nothing usable is cached, in direct
    style. *)
Lemma getSecret_uncached (env : Jwt.process_env) (name : string)
      (st : Secrets.state) :
  Secrets.truthy (Secrets.cachedSecret st) = false ->
  let asked :=
    (Secrets.sent st ++ [(Secrets.region env, name)])%list in
  (exists e, getSecret env name st
             = (inl e, Secrets.State (Secrets.cachedSecret st) asked))
  \/ (exists s, getSecret env name st = (inr s, Secrets.State s asked)).
Proof.
  intros Hcache. cbn zeta. unfold Secrets.getSecret. rewrite Hcache.
  destruct (send _ _) as [e | resp]; [left; eexists; reflexivity |].
  destruct (negb (Js.not_ (Secrets.SecretString resp)));
    [right; eexists; reflexivity |].
  destruct (Secrets.SecretBinary resp);
    [right; eexists; reflexivity | left; eexists; reflexivity].
Qed.

(** X17.  The cache of [getSecret] is not keyed by the name of the
    secret.  Once a call has returned a truthy secret, every later call
    returns that same secret without asking Secrets Manager, also for
    another name and in another region.  A secret that is falsy ([null],
    [false], [0] or the empty string) is returned but never served from
    the cache: the next call asks again.  A call that throws leaves the
    cache as it was. *)
Theorem getSecret_cache (env : Jwt.process_env) (name : string)
        (st : Secrets.state) :
  let after := snd (getSecret env name st) in
  (forall s, fst (getSecret env name st) = inr s ->
             Secrets.truthy s = true ->
             forall env' name', getSecret env' name' after = (inr s, after))
  /\ (forall s, fst (getSecret env name st) = inr s ->
                Secrets.truthy s = false ->
                forall env' name',
                  Secrets.sent (snd (getSecret env' name' after))
                  = (Secrets.sent after
                     ++ [(Secrets.region env', name')])%list)
  /\ (forall e, fst (getSecret env name st) = inl e ->
                Secrets.cachedSecret after = Secrets.cachedSecret st).
Proof.
  cbn zeta.
  assert (forall st' env' name',
             Secrets.truthy (Secrets.cachedSecret st') = true ->
             getSecret env' name' st' = (inr (Secrets.cachedSecret st'), st'))
    as Hhit.
  { intros st' env' name' Ht. unfold Secrets.getSecret. rewrite Ht.
    reflexivity. }
  destruct (Secrets.truthy (Secrets.cachedSecret st)) eqn:Hcache.
  - rewrite (Hhit st env name Hcache). cbn [fst snd].
    split; [| split].
    + intros s Hs _ env' name'. injection Hs as <-. apply Hhit. exact Hcache.
    + intros s Hs Hfalsy. injection Hs as <-. congruence.
    + reflexivity.
  - destruct (getSecret_uncached env name st Hcache)
      as [[e ->] | [s ->]]; cbn [fst snd].
    + split; [intros s Hs; discriminate Hs |].
      split; [intros s Hs; discriminate Hs | reflexivity].
    + split; [| split].
      * intros s' Hs Htruthy env' name'. injection Hs as <-.
        apply (Hhit (Secrets.State s _) env' name'). exact Htruthy.
      * intros s' Hs Hfalsy env' name'. injection Hs as <-.
        destruct (getSecret_uncached env' name' (Secrets.State s
                    (Secrets.sent st ++ [(Secrets.region env, name)])%list)
                    Hfalsy) as [[e ->] | [s' ->]]; reflexivity.
      * intros e He. discriminate He.
Qed.

Lemma object_config_none (env : Jwt.process_env)
      (f : gmap string Dyn.value) :
  Secrets.object_config parseInt URL_parse env f = None
  <-> Dyn.truthy (Dyn.get f "host") = false
      /\ Dyn.truthy (Dyn.get f "endpoint") = false
      /\ Dyn.truthy (Dyn.get f "connectionString") = false
      /\ Dyn.truthy (Dyn.get f "connection_string") = false
      /\ Dyn.truthy (Dyn.get f "username") = false
      /\ Dyn.truthy (Dyn.get f "db_username") = false.
Proof.
  unfold Secrets.object_config. cbn zeta. rewrite !truthy_or.
  destruct (Dyn.truthy (Dyn.get f "host")),
           (Dyn.truthy (Dyn.get f "endpoint")),
           (Dyn.truthy (Dyn.get f "connectionString")),
           (Dyn.truthy (Dyn.get f "connection_string")),
           (Dyn.truthy (Dyn.get f "username")),
           (Dyn.truthy (Dyn.get f "db_username"));
    cbn [orb]; split; intros H; try discriminate H;
    try (destruct H as (? & ? & ? & ? & ? & ?); discriminate);
    try reflexivity; auto 10.
Qed.

(** X18.  A secret in the RDS format, an object with a user name but
    with no host, no endpoint and no connection string, does not say
    where the database is.  In a deployed function with no pool cached,
    [connectDB] then throws the error of an incomplete configuration,
    without making a pool, unless [DB_ENDPOINT] or [RDS_ENDPOINT] is set
    and not empty. *)
Theorem rds_secret_needs_endpoint
        (env : Jwt.process_env) (st : Database.state)
        (f : gmap string Dyn.value) :
  Auth.isDevelopment env = false ->
  Database.cachedPool st = None ->
  fst (getSecret env
         (Js.or_default (env !! "DB_SECRET_NAME") "funds-project/postgres")
         (Database.secrets st))
  = inr (Secrets.SecObj f) ->
  Dyn.truthy (Dyn.get f "host") = false ->
  Dyn.truthy (Dyn.get f "endpoint") = false ->
  Dyn.truthy (Dyn.get f "connectionString") = false ->
  Dyn.truthy (Dyn.get f "connection_string") = false ->
  Dyn.truthy (Dyn.or (Dyn.get f "username") (Dyn.get f "db_username"))
  = true ->
  Js.not_ (env !! "DB_ENDPOINT") = true ->
  Js.not_ (env !! "RDS_ENDPOINT") = true ->
  fst (connectDB env st) = inl Database.incomplete
  /\ Database.pools_made (snd (connectDB env st)) = Database.pools_made st.
Proof.
  intros Hprod Hcache Hsecret Hhost Hendpoint Hcs1 Hcs2 Huser Hdb Hrds.
  destruct (connectDB_uncached env st Hcache)
    as (config & sec & Hconfig & ->).
  rewrite Hprod in Hconfig. unfold Secrets.getDbConfig in Hconfig.
  destruct (getSecret env _ (Database.secrets st)) as [res st'].
  cbn [fst] in Hsecret. subst res.
  unfold Secrets.object_config in Hconfig. cbn zeta in Hconfig.
  rewrite !truthy_or, Hhost, Hendpoint, Hcs1, Hcs2 in Hconfig.
  cbn [orb] in Hconfig. rewrite truthy_or in Huser. rewrite Huser in Hconfig.
  injection Hconfig as -> ->.
  cbn [Secrets.c_host].
  rewrite !truthy_or, !truthy_env_get, Hdb, Hrds, Hendpoint.
  cbn [negb orb fst snd Database.pools_made]. split; reflexivity.
Qed.

(** X19.  [getDbConfig] throws ["Unable to parse database configuration
    from secret"] for a secret object exactly when none of [host],
    [endpoint], [connectionString], [connection_string], [username] and
    [db_username] is set to a truthy value; for every secret string
    that does not start with ["postgresql://"], whatever else it is; and
    for a secret that is an array, a number or a boolean. *)
Theorem getDbConfig_unable (env : Jwt.process_env) (name : string)
        (st : Secrets.state) (secret : Secrets.secret) :
  fst (getSecret env name st) = inr secret ->
  match secret with
  | Secrets.SecObj f =>
      fst (getDbConfig env name st) = inl Secrets.unable
      <-> Dyn.truthy (Dyn.get f "host") = false
          /\ Dyn.truthy (Dyn.get f "endpoint") = false
          /\ Dyn.truthy (Dyn.get f "connectionString") = false
          /\ Dyn.truthy (Dyn.get f "connection_string") = false
          /\ Dyn.truthy (Dyn.get f "username") = false
          /\ Dyn.truthy (Dyn.get f "db_username") = false
  | Secrets.SecStr s =>
      Js.startsWith "postgresql://" s = false ->
      fst (getDbConfig env name st) = inl Secrets.unable
  | Secrets.SecNull =>
      fst (getDbConfig env name st) = inl null_property_error
  | _ => fst (getDbConfig env name st) = inl Secrets.unable
  end.
Proof.
  intros Hsecret. unfold Secrets.getDbConfig.
  destruct (getSecret env name st) as [res st']. cbn [fst] in Hsecret.
  subst res. destruct secret as [f | | | b | q | s]; cbn [fst];
    try reflexivity.
  - rewrite <- (object_config_none env f).
    destruct (Secrets.object_config parseInt URL_parse env f)
      as [result|] eqn:Hresult; [| split; reflexivity].
    split; [| discriminate]. intros ->. exfalso.
    unfold Secrets.object_config in Hresult. cbn zeta in Hresult.
    destruct (Dyn.truthy (Dyn.or (Dyn.get f "host") (Dyn.get f "endpoint")));
      [discriminate Hresult |].
    destruct (Dyn.truthy (Dyn.or (Dyn.get f "connectionString")
                                 (Dyn.get f "connection_string"))).
    + unfold Secrets.parseConnectionString in Hresult.
      destruct (URL_parse _); [| discriminate Hresult].
      injection Hresult as Hresult. cbv [String.append] in Hresult.
      discriminate Hresult.
    + destruct (Dyn.truthy (Dyn.or (Dyn.get f "username")
                                   (Dyn.get f "db_username")));
        discriminate Hresult.
  - intros ->. reflexivity.
Qed.

End Configuration.


Lemma connectDB_makes_pool_witness :
  exists p,
    fst (SampleConfig.connectDB SampleConfig.local_env Database.initial)
    = inr p
    /\ Database.port (Database.pool_config p) = Dyn.Num 5432
    /\ Database.ssl (Database.pool_config p) <> Database.SslOff.
Proof.
  eexists. split; [reflexivity |].
  destruct (connectDB_makes_pool SampleConfig.send SampleConfig.JSON_parse
              SampleConfig.binary_utf8 SampleConfig.parseInt
              SampleConfig.URL_parse SampleConfig.null_property_error
              SampleConfig.connect SampleConfig.local_env Database.initial _
              eq_refl eq_refl)
    as (_ & _ & _ & _ & _ & _ & _ & _ & _ & Hssl).
  split; [reflexivity |].
  intros Hoff. apply Hssl in Hoff. destruct Hoff as [H | H]; discriminate H.
Defined.

Lemma local_configuration_required_witness :
  SampleConfig.connectDB {[ "DB_HOST" := "localhost"; "DB_USER" := "dev" ]}
                         Database.initial
  = (inl Database.incomplete, Database.initial).
Proof.
  apply (local_configuration_required SampleConfig.send
           SampleConfig.JSON_parse SampleConfig.binary_utf8
           SampleConfig.parseInt SampleConfig.URL_parse
           SampleConfig.null_property_error SampleConfig.connect
           {[ "DB_HOST" := "localhost"; "DB_USER" := "dev" ]}
           Database.initial);
    reflexivity.
Defined.

Lemma getSecret_cache_witness :
  let after :=
    snd (SampleConfig.getSecret ∅ "funds-project/postgres" Secrets.initial) in
  SampleConfig.getSecret ∅ "another/secret" after
  = (inr SampleConfig.rds_secret, after).
Proof.
  cbn zeta.
  apply (getSecret_cache SampleConfig.send SampleConfig.JSON_parse
           SampleConfig.binary_utf8 ∅ "funds-project/postgres"
           Secrets.initial); reflexivity.
Defined.

Lemma rds_secret_needs_endpoint_witness :
  fst (SampleConfig.connectDB Sample.lambda_env Database.initial)
  = inl Database.incomplete.
Proof.
  apply (rds_secret_needs_endpoint SampleConfig.send SampleConfig.JSON_parse
           SampleConfig.binary_utf8 SampleConfig.parseInt
           SampleConfig.URL_parse SampleConfig.null_property_error
           SampleConfig.connect Sample.lambda_env Database.initial
           {[ "username" := Dyn.Str "app"; "password" := Dyn.Str "pw" ]});
    reflexivity.
Defined.

Lemma getDbConfig_unable_witness :
  fst (Secrets.getDbConfig
         (fun _ _ => inr (Secrets.Response (Some "postgres://db/app") None))
         (fun _ => None) SampleConfig.binary_utf8 SampleConfig.parseInt
         SampleConfig.URL_parse SampleConfig.null_property_error ∅
         "funds-project/postgres" Secrets.initial)
  = inl Secrets.unable.
Proof.
  apply (getDbConfig_unable
           (fun _ _ => inr (Secrets.Response (Some "postgres://db/app") None))
           (fun _ => None) SampleConfig.binary_utf8 SampleConfig.parseInt
           SampleConfig.URL_parse SampleConfig.null_property_error ∅
           "funds-project/postgres" Secrets.initial
           (Secrets.SecStr "postgres://db/app"));
    reflexivity.
Defined.

(** ** The UPDATE statement of [saveProfile] *)

Lemma numbered_app (k : Z) (a b : list string) :
  numbered k (a ++ b) = (numbered k a ++ numbered (k + Z.of_nat (length a)) b)%list.
Proof.
  revert k. induction a as [|c a IH]; intros k.
  - cbn. f_equal. lia.
  - cbn [app numbered length]. rewrite IH. cbn [app]. do 3 f_equal. lia.
Qed.

Lemma numbered_length (k : Z) (cols : list string) :
  length (numbered k cols) = length cols.
Proof. revert k. induction cols; intros k; cbn; auto. Qed.

(** The loop over the columns adds, for every field that is provided, an
    assignment with the next number and the value of the field. *)
Lemma fold_push (fields : list (string * Dyn.value)) :
  forall b : Profile.builder,
    let given := List.filter (fun f => Profile.provided (snd f)) fields in
    fold_left Profile.push_if_provided fields b
    = Profile.Builder
        (Profile.updateFields b
         ++ numbered (Profile.paramCount b) (map fst given))
        (Profile.updateValues b ++ map snd given)
        (Profile.paramCount b + Z.of_nat (length given)).
Proof.
  induction fields as [|[col v] fields IH]; intros b; cbn zeta.
  - cbn. rewrite !app_nil_r, Z.add_0_r. destruct b; reflexivity.
  - cbn [fold_left List.filter snd]. rewrite IH. cbn zeta.
    unfold Profile.push_if_provided. cbn [fst snd].
    destruct (Profile.provided v).
    + cbn [Profile.push Profile.updateFields Profile.updateValues
           Profile.paramCount map length numbered fst snd].
      rewrite <- !app_assoc. cbn [app]. f_equal. lia.
    + reflexivity.
Qed.

Lemma filter_head {A : Type} (f : A -> bool) (x : A) (l : list A) :
  f x = true -> List.filter f (x :: l) = x :: List.filter f l.
Proof. intros H. cbn [List.filter]. rewrite H. reflexivity. Qed.

Lemma truthy_provided (v : Dyn.value) :
  Dyn.truthy v = true -> Profile.provided v = true.
Proof. destruct v; cbn; congruence. Qed.

Section SaveProfile.

Variable valid_date : Dyn.value -> bool.
Variable emailRegex_test : Dyn.value -> bool.
Variable to_number : Dyn.value -> option Q.

Local Abbreviation saveProfile :=
  (Profile.saveProfile valid_date emailRegex_test to_number).
Local Abbreviation validate :=
  (Profile.validate valid_date emailRegex_test to_number).

Lemma validate_names (b : Profile.body) :
  validate b = None ->
  Dyn.truthy (Profile.firstName b) = true
  /\ Dyn.truthy (Profile.lastName b) = true.
Proof.
  unfold Profile.validate.
  destruct (Dyn.truthy (Profile.firstName b)),
           (Dyn.truthy (Profile.lastName b)); cbn; auto; discriminate.
Qed.

Lemma validate_message (b : Profile.body) (msg : string) :
  validate b = Some msg -> msg <> "No profile fields provided to update".
Proof.
  unfold Profile.validate.
  repeat match goal with
         | |- context [if ?c then _ else _] => destruct c
         end;
    intros H; try discriminate H; injection H as <-; discriminate.
Qed.

(** X20.  [saveProfile] never answers ["No profile fields provided to
    update"]: the check before it wants a first and a last name, and
    with these the list of assignments is not empty. *)
Theorem no_fields_answer_unreachable
        (userId : Dyn.value) (b : Profile.body) (userCheck : nat)
        (userData : option Dyn.value) :
  saveProfile userId b userCheck userData
  <> Profile.Answer 400 "No profile fields provided to update".
Proof.
  unfold Profile.saveProfile.
  destruct (validate b) as [msg|] eqn:Hvalid.
  { intros H. injection H as H. apply (validate_message b msg Hvalid H). }
  destruct (Nat.eqb userCheck 0); [discriminate |].
  destruct (validate_names b Hvalid) as [Hfirst _].
  apply truthy_provided in Hfirst.
  change (Profile.columns b)
    with (("first_name", Profile.firstName b) :: tl (Profile.columns b)).
  generalize (tl (Profile.columns b)). intros rest.
  rewrite fold_push. cbn zeta.
  rewrite (filter_head (fun f => Profile.provided (snd f))) by exact Hfirst.
  cbn [Profile.updateFields Profile.updateValues Profile.paramCount app map
       fst numbered length Nat.eqb].
  destruct userData; discriminate.
Qed.

(** The UPDATE statement of [saveProfile], when it is reached. *)
Lemma saveProfile_update_shape
        (userId : Dyn.value) (b : Profile.body) (userCheck : nat)
        (userData : option Dyn.value)
        (assignments : list string) (n : Z) (params : list Dyn.value) :
  saveProfile userId b userCheck userData
  = Profile.Update assignments n params ->
  exists created_by,
    userData = Some created_by
    /\ let given :=
         List.filter (fun f => Profile.provided (snd f)) (Profile.columns b) in
       let stamp :=
         if Dyn.truthy created_by then [] else ["created_by"] in
       let cols := (map fst given ++ stamp ++ ["updated_by"])%list in
       assignments
       = (numbered 1 cols ++ ["updated_at = CURRENT_TIMESTAMP"])%list
       /\ params
          = (map snd given ++ map (fun _ => userId) stamp
             ++ [userId; userId])%list
       /\ n = Z.of_nat (length params)
       /\ length params = S (length cols).
Proof.
  unfold Profile.saveProfile. cbn zeta.
  generalize (Profile.columns b). intros fields.
  destruct (validate b); [discriminate |].
  destruct (Nat.eqb userCheck 0); [discriminate |].
  rewrite fold_push. cbn zeta.
  generalize (List.filter (fun f => Profile.provided (snd f)) fields).
  intros given.
  cbn [Profile.updateFields Profile.updateValues Profile.paramCount app].
  destruct (Nat.eqb _ 0); [discriminate |].
  destruct userData as [created_by|]; [| discriminate].
  intros H. exists created_by. split; [reflexivity |].
  destruct (Dyn.truthy created_by); cbn [negb] in H;
    cbn [Profile.push Profile.updateFields Profile.updateValues
         Profile.paramCount] in H;
    injection H as <- <- <-.
  - cbn [app map]. rewrite numbered_app, length_map.
    cbn [numbered]. rewrite !length_app, !length_map. cbn [length].
    split; [reflexivity |].
    split; [rewrite <- app_assoc; reflexivity |].
    split; lia.
  - cbn [app map].
    rewrite numbered_app, length_map. cbn [numbered].
    rewrite !length_app, !length_map. cbn [length].
    split; [rewrite <- !app_assoc; cbn [app]; do 4 f_equal; lia |].
    split; [rewrite <- !app_assoc; reflexivity |].
    split; lia.
Qed.

(** X21.  In the UPDATE statement of [saveProfile] every placeholder has
    its parameter.  The assignments are, in the order of the source, the
    columns of the fields that the body provides ([null] counts as
    provided), then [created_by] when the user row has none, then
    [updated_by]; they carry the numbers 1, 2, ... in that order; the
    parameters are the values of those fields, then the user id for
    [created_by] and for [updated_by], then the user id once more for
    [WHERE id = $n], where [n] is the number of parameters. *)
Theorem update_parameters_aligned
        (userId : Dyn.value) (b : Profile.body) (userCheck : nat)
        (userData : option Dyn.value)
        (assignments : list string) (n : Z) (params : list Dyn.value) :
  saveProfile userId b userCheck userData
  = Profile.Update assignments n params ->
  exists created_by,
    userData = Some created_by
    /\ let given :=
         List.filter (fun f => Profile.provided (snd f)) (Profile.columns b) in
       let stamp :=
         if Dyn.truthy created_by then [] else ["created_by"] in
       let cols := (map fst given ++ stamp ++ ["updated_by"])%list in
       assignments
       = (numbered 1 cols ++ ["updated_at = CURRENT_TIMESTAMP"])%list
       /\ params
          = (map snd given ++ map (fun _ => userId) stamp
             ++ [userId; userId])%list
       /\ n = Z.of_nat (length params)
       /\ length params = S (length cols).
Proof.
  exact (saveProfile_update_shape userId b userCheck userData assignments n
           params).
Qed.

Lemma includes_In (l : list string) (v : Dyn.value) :
  Profile.includes l v = true -> exists s, v = Dyn.Str s /\ In s l.
Proof.
  destruct v as [| | | | | s |]; cbn; try discriminate.
  intros H. apply existsb_exists in H as (x & Hx & Heq).
  apply String.eqb_eq in Heq. subst x. eauto.
Qed.

Lemma in_range (v : Dyn.value) :
  Profile.isNaN to_number v = false ->
  Profile.less to_number v 0 = false ->
  exists q, to_number v = Some q /\ (0 <= q)%Q.
Proof.
  unfold Profile.isNaN, Profile.less.
  destruct (to_number v) as [q|]; [| discriminate].
  intros _ H. apply negb_false_iff, Qle_bool_iff in H. eauto.
Qed.

(** X22.  [saveProfile] sends its UPDATE statement only for a body that
    has passed every check and a user that was found: the two names are
    truthy; a gender, marital status or residential status that is
    truthy is one of the allowed words; a number of years or of
    dependents that is provided converts to a number that is not
    negative, and a number of months to a number from 0 to 11. *)
Theorem update_only_when_valid
        (userId : Dyn.value) (b : Profile.body) (userCheck : nat)
        (userData : option Dyn.value)
        (assignments : list string) (n : Z) (params : list Dyn.value) :
  saveProfile userId b userCheck userData
  = Profile.Update assignments n params ->
  let allowed words v :=
    Dyn.truthy v = true -> exists s, v = Dyn.Str s /\ In s words in
  let not_negative v :=
    Profile.provided v = true ->
    exists q, to_number v = Some q /\ (0 <= q)%Q in
  userCheck <> 0%nat
  /\ Dyn.truthy (Profile.firstName b) = true
  /\ Dyn.truthy (Profile.lastName b) = true
  /\ allowed ["Male"; "Female"; "Other"] (Profile.gender b)
  /\ allowed ["Single"; "Married"; "Divorced"; "Widowed"]
             (Profile.maritalStatus b)
  /\ allowed ["Owned"; "Rental"; "Parental"] (Profile.residentialStatus b)
  /\ not_negative (Profile.durationOfStayYears b)
  /\ not_negative (Profile.numberOfDependents b)
  /\ (Profile.provided (Profile.durationOfStayMonths b) = true ->
      exists q, to_number (Profile.durationOfStayMonths b) = Some q
                /\ (0 <= q)%Q /\ (q <= 11)%Q).
Proof.
  unfold Profile.saveProfile.
  destruct (validate b) as [msg|] eqn:Hvalid; [discriminate |].
  destruct (Nat.eqb_spec userCheck 0) as [| Hfound]; [discriminate |].
  intros _. cbn zeta. split; [exact Hfound |].
  destruct (validate_names b Hvalid) as [Hfirst Hlast].
  split; [exact Hfirst |]. split; [exact Hlast |].
  unfold Profile.validate in Hvalid. rewrite Hfirst, Hlast in Hvalid.
  cbn [negb orb] in Hvalid.
  destruct (Dyn.truthy (Profile.dateOfBirth b)
            && negb (valid_date (Profile.dateOfBirth b)));
    [discriminate |].
  destruct (Dyn.truthy (Profile.gender b)
            && negb (Profile.includes ["Male"; "Female"; "Other"]
                                      (Profile.gender b))) eqn:Hgender;
    [discriminate |].
  destruct (Dyn.truthy (Profile.maritalStatus b)
            && negb (Profile.includes
                       ["Single"; "Married"; "Divorced"; "Widowed"]
                       (Profile.maritalStatus b))) eqn:Hmarital;
    [discriminate |].
  destruct (Dyn.truthy (Profile.residentialStatus b)
            && negb (Profile.includes ["Owned"; "Rental"; "Parental"]
                                      (Profile.residentialStatus b)))
    eqn:Hresidential; [discriminate |].
  destruct (Dyn.truthy (Profile.email b)
            && negb (emailRegex_test (Profile.email b)));
    [discriminate |].
  destruct (Profile.provided (Profile.durationOfStayYears b)
            && (Profile.isNaN to_number (Profile.durationOfStayYears b)
                || Profile.less to_number (Profile.durationOfStayYears b) 0))
    eqn:Hyears; [discriminate |].
  destruct (Profile.provided (Profile.durationOfStayMonths b)
            && (Profile.isNaN to_number (Profile.durationOfStayMonths b)
                || Profile.less to_number (Profile.durationOfStayMonths b) 0
                || Profile.greater to_number
                                   (Profile.durationOfStayMonths b) 11))
    eqn:Hmonths; [discriminate |].
  destruct (Profile.provided (Profile.numberOfDependents b)
            && (Profile.isNaN to_number (Profile.numberOfDependents b)
                || Profile.less to_number (Profile.numberOfDependents b) 0))
    eqn:Hdependents; [discriminate |].
  clear Hvalid.
  assert (forall words v,
             Dyn.truthy v && negb (Profile.includes words v) = false ->
             Dyn.truthy v = true -> exists s, v = Dyn.Str s /\ In s words)
    as Hallowed.
  { intros words v Hcheck Htruthy. rewrite Htruthy in Hcheck.
    apply negb_false_iff in Hcheck. apply includes_In. exact Hcheck. }
  assert (forall v,
             Profile.provided v
             && (Profile.isNaN to_number v || Profile.less to_number v 0)
             = false ->
             Profile.provided v = true ->
             exists q, to_number v = Some q /\ (0 <= q)%Q) as Hnumber.
  { intros v Hcheck Hprovided. rewrite Hprovided in Hcheck.
    apply orb_false_iff in Hcheck as [Hnan Hless].
    apply in_range; assumption. }
  split; [apply Hallowed; exact Hgender |].
  split; [apply Hallowed; exact Hmarital |].
  split; [apply Hallowed; exact Hresidential |].
  split; [apply Hnumber; exact Hyears |].
  split; [apply Hnumber; exact Hdependents |].
  intros Hprovided. rewrite Hprovided in Hmonths.
  apply orb_false_iff in Hmonths as [Hmonths Hgreater].
  apply orb_false_iff in Hmonths as [Hnan Hless].
  destruct (in_range _ Hnan Hless) as (q & Hq & Hpos).
  exists q. split; [exact Hq |]. split; [exact Hpos |].
  unfold Profile.greater in Hgreater. rewrite Hq in Hgreater.
  apply negb_false_iff, Qle_bool_iff in Hgreater. exact Hgreater.
Qed.

End SaveProfile.

Lemma no_fields_answer_unreachable_witness :
  SampleProfile.saveProfile (Dyn.Num 1) SampleProfile.nothing 1
                            (Some Dyn.Null)
  <> Profile.Answer 400 "No profile fields provided to update".
Proof.
  apply (no_fields_answer_unreachable SampleProfile.valid_date
           SampleProfile.emailRegex_test SampleProfile.to_number).
Defined.

Lemma update_parameters_aligned_witness :
  SampleProfile.saveProfile (Dyn.Num 1) SampleProfile.request 1
                            (Some Dyn.Null)
  = Profile.Update
      [ "first_name = $1"; "last_name = $2"; "city = $3";
        "duration_of_stay_months = $4"; "is_active = $5";
        "created_by = $6"; "updated_by = $7";
        "updated_at = CURRENT_TIMESTAMP" ]
      8
      [ Dyn.Str "Asha"; Dyn.Str "Rao"; Dyn.Null; Dyn.Num 3; Dyn.Bool false;
        Dyn.Num 1; Dyn.Num 1; Dyn.Num 1 ].
Proof.
  destruct (SampleProfile.saveProfile (Dyn.Num 1) SampleProfile.request 1
                                      (Some Dyn.Null))
    as [st msg | | assignments n params] eqn:Hrun;
    [discriminate Hrun | discriminate Hrun |].
  destruct (update_parameters_aligned SampleProfile.valid_date
              SampleProfile.emailRegex_test SampleProfile.to_number
              (Dyn.Num 1) SampleProfile.request 1 (Some Dyn.Null)
              assignments n params Hrun)
    as (created_by & Hdata & Hset & Hparams & Hn & _).
  injection Hdata as <-.
  rewrite Hn, Hparams, Hset. reflexivity.
Defined.

Lemma update_only_when_valid_witness :
  exists q, SampleProfile.to_number (Dyn.Num 3) = Some q
            /\ (0 <= q)%Q /\ (q <= 11)%Q.
Proof.
  destruct (update_only_when_valid SampleProfile.valid_date
              SampleProfile.emailRegex_test SampleProfile.to_number
              (Dyn.Num 1) SampleProfile.request 1 (Some Dyn.Null) _ _ _
              eq_refl)
    as (_ & _ & _ & _ & _ & _ & _ & _ & Hmonths).
  apply Hmonths. reflexivity.
Defined.

(** ** The protected route *)

Lemma authenticate_next (verifyToken : string -> Jwt.error + Jwt.claims)
      (req req' : Gate.request) :
  Gate.authenticate verifyToken req = Gate.Next req' ->
  exists h decoded,
    Gate.authorization req = Some h
    /\ Gate.extract h <> ""
    /\ verifyToken (Gate.extract h) = inr decoded
    /\ req' = Gate.Request (Some h) (Some decoded).
Proof.
  intros Hnext. unfold Gate.authenticate in Hnext.
  destruct (Gate.authorization req) as [h|] eqn:Hh; [| discriminate].
  cbn [Js.not_] in Hnext.
  destruct (Js.falsy h) eqn:Hf; [discriminate |].
  change (default "" (Some h)) with h in Hnext.
  destruct (Js.falsy (Gate.extract h)) eqn:Hx; [discriminate |].
  destruct (verifyToken (Gate.extract h)) as [e | c] eqn:Hv;
    [discriminate |].
  exists h, c. apply falsy_false in Hx.
  repeat split; try assumption. congruence.
Qed.

(** X23.  On [PUT /api/profile] the UPDATE statement is sent only for a
    request whose token the verifier has accepted, and the row it names
    is the one of that token: the parameter of [WHERE id = $n] is the
    user id of the decoded token, and so is the value written to
    [updated_by].  Without a header the route answers 401 and the handler
    does not run. *)
Theorem profile_update_needs_token
        (verifyToken : string -> Jwt.error + Jwt.claims)
        (valid_date emailRegex_test : Dyn.value -> bool)
        (to_number : Dyn.value -> option Q)
        (req : Gate.request) (b : Profile.body) (userCheck : nat)
        (userData : option Dyn.value) :
  let route :=
    Routes.put_profile verifyToken valid_date emailRegex_test to_number
                       req b userCheck userData in
  (forall assignments n params,
      route = Routes.Handled (Profile.Update assignments n params) ->
      exists h decoded before,
        Gate.authorization req = Some h
        /\ verifyToken (Gate.extract h) = inr decoded
        /\ let userId :=
             Dyn.Num (inject_Z (Jwt.userId (Jwt.body decoded))) in
           params = (before ++ [userId; userId])%list
           /\ n = Z.of_nat (length params)
           /\ In ("updated_by = $" ++ Otp.toString (n - 1)) assignments)
  /\ (Gate.authorization req = None ->
      route = Routes.Rejected 401 "Authorization header is required").
Proof.
  cbn zeta. unfold Routes.put_profile. split.
  - intros assignments n params Hroute.
    destruct (Gate.authenticate verifyToken req) as [st e | req'] eqn:Hgate;
      [discriminate Hroute |].
    destruct (authenticate_next verifyToken req req' Hgate)
      as (h & decoded & Hh & _ & Hv & ->).
    cbn [Gate.user] in Hroute. injection Hroute as Hrun.
    exists h, decoded.
    destruct (saveProfile_update_shape valid_date emailRegex_test to_number
                _ b userCheck userData assignments n params Hrun)
      as (created_by & _ & Hshape).
    cbn zeta in Hshape. revert Hshape.
    generalize
      (List.filter (fun f => Profile.provided (snd f)) (Profile.columns b)).
    intros given (Hset & Hparams & Hn & Hlen).
    eexists. split; [exact Hh |]. split; [exact Hv |]. cbn zeta.
    split; [rewrite Hparams, app_assoc; reflexivity |].
    split; [exact Hn |].
    rewrite Hset, numbered_app. apply in_or_app. left.
    rewrite numbered_app. apply in_or_app. right. apply in_or_app. right.
    cbn [numbered]. left. rewrite Hn, Hlen, !length_app. cbn [length].
    match goal with
    | |- String.append _ (String.append _ (Otp.toString ?x))
         = String.append _ (Otp.toString ?y) =>
        replace y with x by lia; generalize (Otp.toString x)
    end.
    intros digits. reflexivity.
  - intros Hnone. unfold Gate.authenticate. rewrite Hnone. reflexivity.
Qed.

Lemma profile_update_needs_token_witness :
  Routes.put_profile
    (fun s => Jwt.verifyToken Sample.hmac Sample.local_env 3000000
                              (Sample.parse s))
    SampleProfile.valid_date SampleProfile.emailRegex_test
    SampleProfile.to_number (Gate.Request None None) SampleProfile.request 1
    (Some Dyn.Null)
  = Routes.Rejected 401 "Authorization header is required".
Proof.
  apply (profile_update_needs_token
           (fun s => Jwt.verifyToken Sample.hmac Sample.local_env 3000000
                                     (Sample.parse s))
           SampleProfile.valid_date SampleProfile.emailRegex_test
           SampleProfile.to_number (Gate.Request None None)
           SampleProfile.request 1 (Some Dyn.Null)).
  reflexivity.
Defined.
